(** * design-system-react: the selected listbox of pills and the welcome mat

    A shallow embedding of [components/pill/private/selected-listbox.jsx]
    ([getAvatar], [getIcon], [SelectedListBox]) and of [WelcomeMat.getCount],
    followed by the properties their specification states about them.

    JavaScript values are an inductive type; an expression that can raise is
    a computation in a small error monad; the rendered markup is a record
    tree; the callers' event handlers are functions into an arbitrary type
    [R] of effects. *)

From Stdlib Require Import ZArith Floats.
From stdpp Require Import gmap strings list fin_maps pretty.

Open Scope Z_scope.

(** ** Exceptions *)

(** What a JavaScript expression of the components can raise: a [TypeError]
    for reading property [reading] of [undefined] or [null], and the
    invariant violation of [React.cloneElement]. *)
Inductive error :=
  | TypeError (reading : string)
  | Invariant (message : string).

Inductive result (A : Type) :=
  | Ok (a : A)
  | Throw (e : error).

Arguments Ok {A} a.
Arguments Throw {A} e.

#[global] Instance result_ret : MRet result := λ A a, Ok a.

#[global] Instance result_bind : MBind result := λ A B k m,
  match m with
  | Ok a => k a
  | Throw e => Throw e
  end.

(** [Array.prototype.map] with a callback that may raise: the callback runs
    on the elements in order, with their index, and the first exception
    ends the loop. *)
Fixpoint map_from {A B : Type} (f : nat → A → result B) (i : nat) (l : list A)
  : result (list B) :=
  match l with
  | [] => Ok []
  | x :: l' =>
      y ← f i x;
      ys ← map_from f (S i) l';
      Ok (y :: ys)
  end.

Definition Array_map {A B : Type} (f : nat → A → result B) (l : list A)
  : result (list B) :=
  map_from f 0%nat l.

(** [Array.prototype.filter] with a predicate that may raise. *)
Fixpoint Array_filter {A : Type} (p : A → result bool) (l : list A)
  : result (list A) :=
  match l with
  | [] => Ok []
  | x :: l' =>
      b ← p x;
      xs ← Array_filter p l';
      Ok (if b : bool then x :: xs else xs)
  end.

(** ** JavaScript values *)

Module JS.

(** The type of a React element: a host tag or a component. *)
Inductive elemType :=
  | Host (tag : string)
  | Component (displayName : string).

(** Numbers are the integers (indices, lengths); objects are finite maps
    from property names; a React element is its type, key and props. *)
#[warnings="-register-all"]
Inductive value :=
  | VUndefined
  | VNull
  | VBool (b : bool)
  | VNum (n : Z)
  | VStr (s : string)
  | VObject (fields : gmap string value)
  | VElement (type : elemType) (key : option string) (props : gmap string value).

(** Truthiness, as [if (v)], [!v], [v || w] and [v && w] test it. *)
Definition truthy (v : value) : bool :=
  match v with
  | VUndefined | VNull => false
  | VBool b => b
  | VNum n => negb (n =? 0)
  | VStr s => negb (String.eqb s "")
  | VObject _ | VElement _ _ _ => true
  end.

(** [a || b] *)
Definition or (a b : value) : value := if truthy a then a else b.

(** The field [k] of an object; a missing property reads as [undefined]. *)
Definition field (fields : gmap string value) (k : string) : value :=
  default VUndefined (fields !! k).

(** [v.k]: raises on [undefined] and [null], reads the field of an object,
    and is [undefined] on the other values (the primitives and the elements
    have no property of the names the components read). *)
Definition get (v : value) (k : string) : result value :=
  match v with
  | VUndefined | VNull => Throw (TypeError k)
  | VObject fields => Ok (field fields k)
  | _ => Ok VUndefined
  end.

(** [v === n] for a number [n]. *)
Definition strict_eq_num (v : value) (n : Z) : bool :=
  match v with
  | VNum m => m =? n
  | _ => false
  end.

(** [v === s] for a string [s]. *)
Definition strict_eq_str (v : value) (s : string) : bool :=
  match v with
  | VStr t => String.eqb t s
  | _ => false
  end.

(** [`${v}`] *)
Definition toString (v : value) : string :=
  match v with
  | VUndefined => "undefined"
  | VNull => "null"
  | VBool true => "true"
  | VBool false => "false"
  | VNum n => pretty n
  | VStr s => s
  | VObject _ | VElement _ _ _ => "[object Object]"
  end.

(** The object has a field [k], holding other than [undefined], whatever
    its truth value. *)
Definition present (fields : gmap string value) (k : string) : Prop :=
  ∃ x, fields !! k = Some x ∧ x ≠ VUndefined.

(** [v] is an object that has a field [k]. *)
Definition carries (v : value) (k : string) : Prop :=
  ∃ fields, v = VObject fields ∧ present fields k.

End JS.

Import JS.

(** ** React *)

Module React.

(** [React.createElement(type, config)], what a JSX tag without children,
    key or ref compiles to. The props are the attributes as written: the
    components' own [defaultProps] are declared outside these sources. *)
Definition createElement (type : elemType) (config : gmap string value) : value :=
  VElement type None config.

(** [React.cloneElement(element, config)] without children: the element's
    type and key are kept, its props are overridden by those of [config].
    React rejects [null] and [undefined]; the components only clone what
    [isReactComponent] accepted. *)
Definition cloneElement (element : value) (config : gmap string value) : result value :=
  match element with
  | VElement type key props => Ok (VElement type key (config ∪ props))
  | _ => Throw (Invariant "React.cloneElement(...): The argument must be a React element")
  end.

End React.

(** Modelled from the spec: [utilities/isReactComponent] is imported by the
    listbox but is not among the sources; the spec describes it as the
    predicate "is this object a renderable visual", a pre-built visual
    component. Here these are the React elements. *)
Definition isReactComponent (v : value) : bool :=
  match v with
  | VElement _ _ _ => true
  | _ => false
  end.

(** ** The selected listbox *)

Set Implicit Arguments.

Module Option.

(** One record of the selection, with the four fields the listbox reads;
    a field the caller left out is [undefined]. *)
Record t := {
  id : value;
  label : value;
  avatar : value;
  icon : value;
}.

End Option.

(** The second argument of an event callback: an object. *)
Abbreviation payload := (gmap string value).

(** An event callback [(event, data) => ...]; [R] is what calling it does. *)
Definition handler (R : Type) : Type := value → payload → R.

Module Pill.

(** The [events] prop handed to a [Pill]. *)
Record Events (R : Type) := {
  onBlur : option (handler R);
  onClick : handler R;
  onRequestFocusOnNextPill : handler R;
  onRequestFocusOnPreviousPill : handler R;
  onRequestRemove : handler R;
  onRequestFocus : handler R;
}.

(** The props of one [<Pill />] of the listbox. *)
Record Props (R : Type) := {
  active : bool;
  assistiveText_remove : value;
  avatar : value;
  events : Events R;
  eventData_option : Option.t;
  icon : value;
  labels_label : value;
  labels_removeTitle : value;
  requestFocus : value;
  tabIndex : Z;
}.

End Pill.

(** [props.events]: the five handlers of the declared shape, and [onBlurPill],
    which the listbox forwards although the shape does not declare it. *)
Record Events (R : Type) := {
  onBlurPill : option (handler R);
  onClickPill : handler R;
  onRequestFocus : handler R;
  onRequestFocusOnNextPill : handler R;
  onRequestFocusOnPreviousPill : handler R;
  onRequestRemove : handler R;
}.

(** The props of [SelectedListBox] that its body reads. [selection] is an
    array of option objects; [events] is [None] when the caller passes none;
    [renderAtSelectionLength] is [None] when it is [undefined]. *)
Record Props (R : Type) := {
  activeOptionIndex : value;
  assistiveText : value;
  events : option (Events R);
  id : value;
  isInline : value;
  isPillContainer : value;
  labels : value;
  renderAtSelectionLength : option Z;
  selection : list Option.t;
  listboxHasFocus : value;
  variant : value;
}.

(** [<li key=...><Pill ... /></li>] *)
Record ListItem (R : Type) := {
  key : string;
  pill : Pill.Props R;
}.

(** The rendered [<div role="listbox"><ul role="group">...</ul></div>]. *)
Record Listbox (R : Type) := {
  className : value;
  listbox_id : value;
  ul_className : string;
  aria_label : value;
  items : list (ListItem R);
}.

Unset Implicit Arguments.

Definition defaultProps_renderAtSelectionLength : Z := 1.

(** React fills a prop that is [undefined] from [defaultProps]. *)
Definition defaultProps {R : Type} (props : Props R) : Props R :=
  {| activeOptionIndex := activeOptionIndex props;
     assistiveText := assistiveText props;
     events := events props;
     id := id props;
     isInline := isInline props;
     isPillContainer := isPillContainer props;
     labels := labels props;
     renderAtSelectionLength :=
       match renderAtSelectionLength props with
       | Some n => Some n
       | None => Some defaultProps_renderAtSelectionLength
       end;
     selection := selection props;
     listboxHasFocus := listboxHasFocus props;
     variant := variant props |}.

Definition getAvatar (option : Option.t) : result value :=
  let avatarObject := Option.avatar option in
  if truthy avatarObject then
    if isReactComponent avatarObject then
      React.cloneElement avatarObject
        {[ "containerClassName" := VStr "slds-pill__icon_container" ]}
    else
      imgSrc ← get avatarObject "imgSrc";
      if truthy imgSrc then
        imgSrc ← get avatarObject "imgSrc";
        title ← get avatarObject "title";
        variant ← get avatarObject "variant";
        Ok (React.createElement (Component "Avatar")
              {[ "imgSrc" := imgSrc;
                 "title" := JS.or title (Option.label option);
                 "variant" := JS.or variant (VStr "user") ]})
      else Ok VNull
  else Ok VNull.

Definition getIcon (option : Option.t) : result value :=
  let iconObject := Option.icon option in
  if truthy iconObject then
    if isReactComponent iconObject then
      React.cloneElement iconObject
        {[ "containerClassName" := VStr "slds-pill__icon_container" ]}
    else
      category ← get iconObject "category";
      cond ← (if truthy category then get iconObject "name" else Ok category);
      if truthy cond then
        category ← get iconObject "category";
        name ← get iconObject "name";
        title ← get iconObject "title";
        Ok (React.createElement (Component "Icon")
              {[ "category" := category;
                 "name" := name;
                 "title" := JS.or title (Option.label option) ]})
      else Ok VNull
  else Ok VNull.

(** Lines 172-173 of the listbox: the icon, and the avatar only without one. *)
Definition resolveVisual (option : Option.t) : result (value * value) :=
  icon ← getIcon option;
  avatar ← (if negb (truthy icon) then getAvatar option else Ok VNull);
  Ok (icon, avatar).

(** [props.events] read before one of its fields. *)
Definition get_events {R : Type} (props : Props R) (k : string) : result (Events R) :=
  match events props with
  | Some ev => Ok ev
  | None => Throw (TypeError k)
  end.

(** The callback of [props.selection.map]. *)
Definition renderItem {R : Type} (props : Props R) (renderIndex : nat)
    (option : Option.t) : result (ListItem R) :=
  let setActiveBasedOnstateFromParent :=
    strict_eq_num (activeOptionIndex props) (Z.of_nat renderIndex) in
  let listboxRenderedForFirstTime :=
    (strict_eq_num (activeOptionIndex props) (-1) && (renderIndex =? 0)%nat)
    || (strict_eq_str (variant props) "readonly"
        && negb (length (selection props) =? 1)%nat
        && (renderIndex =? 0)%nat) in
  let active := setActiveBasedOnstateFromParent || listboxRenderedForFirstTime in
  visual ← resolveVisual option;
  let icon := visual.1 in
  let avatar := visual.2 in
  removePill ← get (assistiveText props) "removePill";
  ev ← get_events props "onBlurPill";
  removePillTitle ← get (labels props) "removePillTitle";
  Ok {| key := toString (id props) +:+ "-list-item-" +:+ toString (Option.id option);
        pill :=
          {| Pill.active := active;
             Pill.assistiveText_remove := removePill;
             Pill.avatar := avatar;
             Pill.events :=
               {| Pill.onBlur := onBlurPill ev;
                  Pill.onClick := λ event data,
                    onClickPill ev event (<[ "index" := VNum (Z.of_nat renderIndex) ]> data);
                  Pill.onRequestFocusOnNextPill := onRequestFocusOnNextPill ev;
                  Pill.onRequestFocusOnPreviousPill := onRequestFocusOnPreviousPill ev;
                  Pill.onRequestRemove := λ event data,
                    onRequestRemove ev event (<[ "index" := VNum (Z.of_nat renderIndex) ]> data);
                  Pill.onRequestFocus := onRequestFocus ev |};
             Pill.eventData_option := option;
             Pill.icon := icon;
             Pill.labels_label := Option.label option;
             Pill.labels_removeTitle := removePillTitle;
             Pill.requestFocus := listboxHasFocus props;
             Pill.tabIndex := if active then 0 else -1 |} |}.

(** [props.selection.length >= props.renderAtSelectionLength]; a comparison
    with [undefined] is false. *)
Definition reachesRenderLength {R : Type} (props : Props R) : bool :=
  match renderAtSelectionLength props with
  | Some n => n <=? Z.of_nat (length (selection props))
  | None => false
  end.

(** The component function; [None] is the [null] it returns below the
    render length. *)
Definition SelectedListBox {R : Type} (props : Props R) : result (option (Listbox R)) :=
  if reachesRenderLength props then
    let className :=
      JS.or (VStr (if truthy (isPillContainer props) then "slds-pill_container" else ""))
            VUndefined in
    let ul_className :=
      if truthy (isInline props)
      then "slds-listbox slds-listbox_inline"
      else "slds-listbox slds-listbox_horizontal slds-p-top_xxx-small" in
    selectedListboxLabel ← get (assistiveText props) "selectedListboxLabel";
    items ← Array_map (renderItem props) (selection props);
    Ok (Some {| className := className;
                listbox_id := id props;
                ul_className := ul_className;
                aria_label := selectedListboxLabel;
                items := items |})
  else Ok None.

(** The component as React renders it: the default props are filled in
    first. *)
Definition render {R : Type} (props : Props R) : result (option (Listbox R)) :=
  SelectedListBox (defaultProps props).

(** The render length in force: the prop, or its default. *)
Definition renderLength {R : Type} (props : Props R) : Z :=
  default defaultProps_renderAtSelectionLength (renderAtSelectionLength props).

(** A prop the caller supplied: neither [undefined] nor [null]. *)
Definition supplied (v : value) : Prop := v ≠ VUndefined ∧ v ≠ VNull.

(** What the specification says of a wrapped callback: whatever the token
    passes, the caller's handler is invoked with a payload whose [index] is
    the render index. *)
Definition injects_index {R : Type} (wrapped caller : handler R) (i : nat) : Prop :=
  ∀ event data, ∃ data',
    data' !! "index" = Some (VNum (Z.of_nat i)) ∧ wrapped event data = caller event data'.

(** What the specification says of the title of a synthesized icon: the
    descriptor's own [title] when that field is present, the option's label
    otherwise. *)
Definition icon_title_as_specified (option : Option.t) : Prop :=
  ∀ fields,
    Option.icon option = VObject fields →
    present fields "category" →
    present fields "name" →
    ∃ props,
      getIcon option = Ok (VElement (Component "Icon") None props)
      ∧ (present fields "title" → props !! "title" = Some (field fields "title"))
      ∧ (¬ present fields "title" → props !! "title" = Some (Option.label option)).

(** ** The welcome mat: progress computed from the children *)

Module WelcomeMat.

(** One child of the welcome mat as [React.Children] sees it: an empty node
    ([null], [undefined] or a boolean among the children), a text node, or
    an element with its props. *)
Inductive Child :=
  | EmptyNode
  | Text (s : string)
  | Element (props : gmap string value).

(** [this.state]; JavaScript numbers are binary64 floats. *)
Record State := {
  completedSteps : float;
  totalSteps : float;
  progress : float;
}.

(** The state set by the constructor. *)
Definition initialState : State :=
  {| completedSteps := 0; totalSteps := 0; progress := 0 |}.

(** A count as a JavaScript number. *)
Definition number_of_nat (n : nat) : float :=
  PrimFloat.of_uint63 (Uint63.of_Z (Z.of_nat n)).

(** [React.Children.count]: every node counts, empty or not; no children
    at all ([undefined]) is the empty list. *)
Definition Children_count (children : list Child) : nat := length children.

(** [React.Children.toArray]: the empty nodes are dropped. *)
Definition Children_toArray (children : list Child) : list Child :=
  List.filter (λ c, match c with EmptyNode => false | _ => true end) children.

(** [(c) => c.props.isComplete]: a text node has no [props]. *)
Definition isComplete (c : Child) : result bool :=
  match c with
  | EmptyNode | Text _ => Throw (TypeError "isComplete")
  | Element props => Ok (truthy (field props "isComplete"))
  end.

(** [getCount]: the three numbers, merged into the state by [setState]. *)
Definition getCount (children : list Child) (state : State) : result State :=
  let totalSteps := number_of_nat (Children_count children) in
  completed ← Array_filter isComplete (Children_toArray children);
  let completedSteps := number_of_nat (length completed) in
  let progress := (completedSteps / totalSteps * 100)%float in
  Ok {| completedSteps := completedSteps;
        totalSteps := totalSteps;
        progress := progress |}.

(** [componentWillMount] of a new instance. *)
Definition componentWillMount (children : list Child) : result State :=
  getCount children initialState.

End WelcomeMat.

(** ** Sample inputs *)

Module Sample.

(** Handlers that record which of them was called, and with what payload. *)
Definition recorder (name : string) : handler (string * gmap string value) :=
  λ _ data, (name, data).

Definition handlers : Events (string * gmap string value) :=
  {| onBlurPill := None;
     onClickPill := recorder "onClickPill";
     onRequestFocus := recorder "onRequestFocus";
     onRequestFocusOnNextPill := recorder "onRequestFocusOnNextPill";
     onRequestFocusOnPreviousPill := recorder "onRequestFocusOnPreviousPill";
     onRequestRemove := recorder "onRequestRemove" |}.

Definition account : Option.t :=
  {| Option.id := VStr "7";
     Option.label := VStr "Acme";
     Option.avatar := VUndefined;
     Option.icon :=
       VObject {[ "category" := VStr "standard"; "name" := VStr "account" ]} |}.

(** An icon descriptor whose [title] is the empty string. *)
Definition untitled : Option.t :=
  {| Option.id := VStr "8";
     Option.label := VStr "Acme";
     Option.avatar := VUndefined;
     Option.icon :=
       VObject {[ "category" := VStr "standard"; "name" := VStr "account";
                  "title" := VStr "" ]} |}.

(** A pre-built icon, and an avatar descriptor next to it. *)
Definition prebuilt : Option.t :=
  {| Option.id := VNum 3;
     Option.label := VStr "Salesforce";
     Option.avatar := VObject {[ "imgSrc" := VStr "/avatar.jpg" ]};
     Option.icon :=
       VElement (Component "Icon") (Some "k")
         {[ "name" := VStr "opportunity"; "size" := VStr "small" ]} |}.

Definition portrait : Option.t :=
  {| Option.id := VNum 3;
     Option.label := VStr "Paddy";
     Option.avatar := VObject {[ "imgSrc" := VStr "/paddy.jpg" ]};
     Option.icon := VUndefined |}.

Definition props : Props (string * gmap string value) :=
  {| activeOptionIndex := VNum (-1);
     assistiveText :=
       VObject {[ "removePill" := VStr "Press delete or backspace to remove";
                  "selectedListboxLabel" := VStr "Selected Options:" ]};
     events := Some handlers;
     id := VStr "listbox";
     isInline := VUndefined;
     isPillContainer := VBool true;
     labels := VObject {[ "removePillTitle" := VStr "Remove" ]};
     renderAtSelectionLength := None;
     selection := [account; prebuilt; portrait];
     listboxHasFocus := VBool false;
     variant := VStr "base" |}.

(** No selection, and none of the optional props. *)
Definition empty : Props (string * gmap string value) :=
  {| activeOptionIndex := VUndefined;
     assistiveText := VUndefined;
     events := None;
     id := VUndefined;
     isInline := VUndefined;
     isPillContainer := VUndefined;
     labels := VUndefined;
     renderAtSelectionLength := None;
     selection := [];
     listboxHasFocus := VUndefined;
     variant := VUndefined |}.

(** The same listbox without [assistiveText] and [labels]. *)
Definition bare : Props (string * gmap string value) :=
  {| activeOptionIndex := VNum (-1);
     assistiveText := VUndefined;
     events := Some handlers;
     id := VStr "listbox";
     isInline := VUndefined;
     isPillContainer := VBool true;
     labels := VUndefined;
     renderAtSelectionLength := None;
     selection := [account; prebuilt; portrait];
     listboxHasFocus := VBool false;
     variant := VStr "base" |}.

(** The listbox with [assistiveText] and [events] but without [labels]. *)
Definition unlabelled : Props (string * gmap string value) :=
  {| activeOptionIndex := VNum (-1);
     assistiveText :=
       VObject {[ "removePill" := VStr "Press delete or backspace to remove";
                  "selectedListboxLabel" := VStr "Selected Options:" ]};
     events := Some handlers;
     id := VStr "listbox";
     isInline := VUndefined;
     isPillContainer := VBool true;
     labels := VUndefined;
     renderAtSelectionLength := None;
     selection := [account; prebuilt; portrait];
     listboxHasFocus := VBool false;
     variant := VStr "base" |}.

(** A pill container: render length 0, nothing selected yet, and neither
    [labels] nor [events]. *)
Definition container : Props (string * gmap string value) :=
  {| activeOptionIndex := VUndefined;
     assistiveText := VObject {[ "selectedListboxLabel" := VStr "Selected Options:" ]};
     events := None;
     id := VStr "pills";
     isInline := VUndefined;
     isPillContainer := VBool true;
     labels := VUndefined;
     renderAtSelectionLength := Some 0;
     selection := [];
     listboxHasFocus := VUndefined;
     variant := VStr "base" |}.

(** What [props] renders, and its three items. *)
Definition box : Listbox (string * gmap string value) :=
  match render props with
  | Ok (Some box) => box
  | _ => {| className := VUndefined; listbox_id := VUndefined; ul_className := "";
            aria_label := VUndefined; items := [] |}
  end.

Definition first : option (ListItem (string * gmap string value)) := items box !! 0%nat.

Definition third : option (ListItem (string * gmap string value)) := items box !! 2%nat.

End Sample.

(** ** The [classnames] package *)

Module ClassNames.

(** An argument of [classNames]: a falsy value, a string, a number, an array
    of arguments, or an object, of which only the keys, in their order, and
    the truth of their values matter. *)
#[warnings="-register-all"]
Inductive arg :=
  | Falsy
  | Str (s : string)
  | Num (n : Z)
  | Arr (l : list arg)
  | Obj (entries : list (string * bool)).

Definition join (classes : list string) : string := String.concat " " classes.

(** What the loop of [classNames] pushes for one argument. *)
Fixpoint classes (a : arg) : list string :=
  match a with
  | Falsy => []
  | Str s => if String.eqb s "" then [] else [s]
  | Num n => if n =? 0 then [] else [pretty n]
  | Arr l =>
      let inner := join (flat_map classes l) in
      if String.eqb inner "" then [] else [inner]
  | Obj entries => (List.filter snd entries).*1
  end.

Definition classNames (args : list arg) : string := join (flat_map classes args).

End ClassNames.

(** ** The map *)

(** [encodeURIComponent] on a string held as its UTF-8 bytes: the unreserved
    characters stay, every other byte becomes a percent escape ([%], the character 37, and two
    hexadecimal digits). *)
Definition unreserved (c : Ascii.ascii) : bool :=
  let n := Ascii.nat_of_ascii c in
  ((65 <=? n) && (n <=? 90))%nat || ((97 <=? n) && (n <=? 122))%nat
  || ((48 <=? n) && (n <=? 57))%nat
  || bool_decide (c ∈ String.list_ascii_of_string "-_.!~*'()").

Definition hexDigit (n : nat) : Ascii.ascii :=
  if (n <? 10)%nat then Ascii.ascii_of_nat (48 + n) else Ascii.ascii_of_nat (55 + n).

Fixpoint encodeURIComponent (s : string) : string :=
  match s with
  | EmptyString => ""
  | String c s' =>
      (if unreserved c then String c ""
       else String (Ascii.ascii_of_nat 37)
              (String (hexDigit (Ascii.nat_of_ascii c / 16))
                 (String (hexDigit (Ascii.nat_of_ascii c mod 16)) "")))
      +:+ encodeURIComponent s'
  end.

(** The own properties an object spread copies; nothing for a value that is
    no object. *)
Definition spread (v : value) : gmap string value :=
  match v with
  | VObject fields => fields
  | _ => ∅
  end.

Module Map.

Module Location.

(** A location, in the shape the prop types require. *)
Record t := {
  id : string;
  name : string;
  address : string;
}.

End Location.

(** What a click does: the caller's callback ran, the frame took focus. *)
Inductive Effect (R : Type) :=
  | Called (r : R)
  | Focused.

Arguments Called {R} r.
Arguments Focused {R}.

Set Implicit Arguments.

(** The props the component reads. [locations] and [selection] are [None]
    when they are [undefined]; [onClickLocation] is [None] unless it is a
    function, which receives the event and a location or [undefined]. *)
Record Props (R : Type) := {
  className : ClassNames.arg;
  classNameContainer : ClassNames.arg;
  id : value;
  labels : value;
  locations : option (list Location.t);
  onClickLocation : option (value → option Location.t → R);
  googleAPIKey : value;
  selection : option Location.t;
}.

(** An instance: its props, the id generated by the constructor, and whether
    the ref callback has stored the frame in [this.iframe]. *)
Record Instance (R : Type) := {
  props : Props R;
  generatedId : string;
  iframe : bool;
}.

(** One [<li>] of the list of coordinates. *)
Record Item (R : Type) := {
  key : string;
  live : string;
  onClick : value → result (list (Effect R));
  aria_pressed : bool;
  link : string;
  address_text : string;
}.

Record Coordinates (R : Type) := {
  coordinates_title : string;
  items : list (Item R);
}.

(** The rendered tree: the outer [div], the frame, and the list. *)
Record Markup (R : Type) := {
  markup_id : value;
  markup_className : string;
  map_className : string;
  iframe_id : string;
  title : value;
  src : string;
  coordinates : option (Coordinates R);
}.

Unset Implicit Arguments.

Definition defaultProps_labels : gmap string value :=
  {[ "title" := VStr "Interactive Map" ]}.

Definition getId {R : Type} (inst : Instance R) : value :=
  JS.or (id (props inst)) (VStr (generatedId inst)).

Definition handleClick {R : Type} (inst : Instance R) (event : value) (i : nat)
  : result (list (Effect R)) :=
  called ←
    match onClickLocation (props inst) with
    | Some callback =>
        match locations (props inst) with
        | Some l => Ok [Called (callback event (l !! i))]
        | None => Throw (TypeError (pretty i))
        end
    | None => Ok []
    end;
  Ok (called ++ if iframe inst then [Focused] else []).

(** The callback of [this.props.locations.map]. *)
Definition renderLocation {R : Type} (inst : Instance R) (i : nat)
    (location : Location.t) : result (Item R) :=
  pressed ←
    match selection (props inst) with
    | Some selected => Ok (String.eqb (Location.id selected) (Location.id location))
    | None => Throw (TypeError "id")
    end;
  Ok {| key := Location.id location;
        live := Location.name location +:+ " is currently selected";
        onClick := λ event, handleClick inst event i;
        aria_pressed := pressed;
        link := Location.name location;
        address_text := Location.address location |}.

Definition render {R : Type} (inst : Instance R) : result (Markup R) :=
  let labels := spread (labels (props inst)) ∪ defaultProps_labels in
  let markup_className :=
    ClassNames.classNames
      [ ClassNames.Str "slds-grid";
        ClassNames.Obj [("slds-has-coordinates", bool_decide (is_Some (locations (props inst))))];
        classNameContainer (props inst) ] in
  let map_className :=
    ClassNames.classNames [ClassNames.Str "slds-map"; className (props inst)] in
  let src :=
    "https://www.google.com/maps/embed/v1/place?key="
    +:+ toString (googleAPIKey (props inst))
    +:+ "&q="
    +:+ encodeURIComponent
          (match selection (props inst) with
           | Some selected => Location.address selected
           | None => ""
           end) in
  l ← match locations (props inst) with
      | Some l => Ok l
      | None => Throw (TypeError "length")
      end;
  coordinates ←
    (if (1 <? length l)%nat then
       items ← Array_map (renderLocation inst) l;
       Ok (Some {| coordinates_title :=
                     toString (field labels "title") +:+ " (" +:+ pretty (length l) +:+ ")";
                   items := items |})
     else Ok None);
  Ok {| markup_id := getId inst;
        markup_className := markup_className;
        map_className := map_className;
        iframe_id := toString (getId inst) +:+ "-google-map";
        title := field labels "title";
        src := src;
        coordinates := coordinates |}.

End Map.

(** ** The brand band *)

(** The part of the DOM the brand band works on: a store of nodes, named by
    numbers, each with its tag, its content, its [type], its children in
    order and its parent. *)
Module Dom.

Record Node := {
  tagName : string;
  innerHTML : string;
  type : string;
  children : list nat;
  parentElement : option nat;
}.

(** [document.createElement(tagName)]: a new node, in no tree yet. *)
Definition createElement (document : gmap nat Node) (tagName : string)
  : nat * gmap nat Node :=
  let node := fresh (dom document) in
  (node,
   <[ node := {| tagName := tagName; innerHTML := ""; type := "";
                 children := []; parentElement := None |} ]> document).

(** [node.innerHTML = html] *)
Definition set_innerHTML (node : nat) (html : string) (document : gmap nat Node)
  : gmap nat Node :=
  alter (λ n, {| tagName := tagName n; innerHTML := html; type := type n;
                 children := children n; parentElement := parentElement n |})
        node document.

(** [node.type = type] *)
Definition set_type (node : nat) (t : string) (document : gmap nat Node)
  : gmap nat Node :=
  alter (λ n, {| tagName := tagName n; innerHTML := innerHTML n; type := t;
                 children := children n; parentElement := parentElement n |})
        node document.

(** [target.append(child)], for a child that has no parent: it becomes the
    last child of the target. *)
Definition append (target child : nat) (document : gmap nat Node) : gmap nat Node :=
  alter (λ n, {| tagName := tagName n; innerHTML := innerHTML n; type := type n;
                 children := children n ++ [child];
                 parentElement := parentElement n |})
        target
        (alter (λ n, {| tagName := tagName n; innerHTML := innerHTML n; type := type n;
                        children := children n; parentElement := Some target |})
               child document).

(** [parent.removeChild(child)], for a child of that parent. *)
Definition removeChild (parent child : nat) (document : gmap nat Node)
  : gmap nat Node :=
  alter (λ n, {| tagName := tagName n; innerHTML := innerHTML n; type := type n;
                 children := List.filter (λ c, negb (c =? child)%nat) (children n);
                 parentElement := parentElement n |})
        parent
        (alter (λ n, {| tagName := tagName n; innerHTML := innerHTML n; type := type n;
                        children := children n; parentElement := None |})
               child document).

(** Every child of a node of the store is a node of the store. *)
Definition closed (document : gmap nat Node) : Prop :=
  ∀ n node child,
    document !! n = Some node → child ∈ children node → is_Some (document !! child).

End Dom.

Module BrandBand.

(** The [styleInjectionTarget] prop: left out, a selector, an element, or
    anything falsy. *)
Inductive Target :=
  | Undefined
  | Selector (selector : string)
  | Element (node : nat)
  | Nothing.

Record Props := {
  children : value;
  className : ClassNames.arg;
  id : value;
  image : value;
  size : value;
  style : value;
  styleContainer : value;
  styleInjectionTarget : Target;
  theme : value;
}.

(** An instance: its props, [generatedId], [state.hasRepaintedTheme] and
    [styleTag]. *)
Record Instance := {
  props : Props;
  generatedId : string;
  hasRepaintedTheme : bool;
  styleTag : option nat;
}.

(** The two [div]s of the render: the style of the outer one; the class,
    id and style of the inner one, and its children. *)
Record Markup := {
  container_style : gmap string value;
  markup_className : value;
  markup_id : value;
  markup_style : value;
  markup_children : value;
}.

(** React fills the props that are [undefined] from [defaultProps]. *)
Definition defaultProps (p : Props) : Props :=
  {| children := children p;
     className := className p;
     id := id p;
     image := match image p with VUndefined => VStr "default" | v => v end;
     size := match size p with VUndefined => VStr "medium" | v => v end;
     style := style p;
     styleContainer := styleContainer p;
     styleInjectionTarget :=
       match styleInjectionTarget p with
       | Undefined => Selector "head"
       | target => target
       end;
     theme := match theme p with VUndefined => VStr "default" | v => v end |}.

Definition getLightningBlueStyles (repaintNumber : value) : string :=
  ".slds-brand-band.dsr-brand-band_lightning-blue_" +:+ toString repaintNumber +:+ ":before {
	background-image: url(/assets/images/themes/oneSalesforce/banner-brand-default.png), linear-gradient(to top, rgba(175, 197, 222, 0) 0, #1B5F9E);
}
.slds-brand-band.dsr-brand-band_lightning-blue_" +:+ toString repaintNumber +:+ ":after {
	background-image: linear-gradient(to bottom, rgba(175, 197, 222, 0) 60%, #AFC5DE);
}".

Definition getId (inst : Instance) : value :=
  JS.or (id (props inst)) (VStr (generatedId inst)).

Section Environment.

(** [document.querySelector], for the selectors the document accepts, and
    the [classNames] of [utilities/class-names], which is not among the
    sources. *)
Variable querySelector : gmap nat Dom.Node → string → option nat.
Variable classNames : list ClassNames.arg → value.

Definition injectLightningBlueStyles (inst : Instance) (document : gmap nat Dom.Node)
  : Instance * gmap nat Dom.Node :=
  let created := Dom.createElement document "style" in
  let styleTag := created.1 in
  let document := created.2 in
  let styleInjectionTarget :=
    match styleInjectionTarget (props inst) with
    | Selector selector => querySelector document selector
    | Element node => Some node
    | Undefined | Nothing => None
    end in
  match styleInjectionTarget with
  | Some target =>
      let document := Dom.set_innerHTML styleTag (getLightningBlueStyles (VNum 0)) document in
      let document := Dom.set_type styleTag "text/css" document in
      let document := Dom.append target styleTag document in
      ({| props := props inst; generatedId := generatedId inst;
          hasRepaintedTheme := hasRepaintedTheme inst;
          styleTag := Some styleTag |},
       document)
  | None => (inst, document)
  end.

(** The constructor, given the props with their defaults and the id that
    [shortid] generates. *)
Definition constructor (p : Props) (generated : string) (document : gmap nat Dom.Node)
  : Instance * gmap nat Dom.Node :=
  let inst := {| props := p; generatedId := generated;
                 hasRepaintedTheme := false; styleTag := None |} in
  if strict_eq_str (theme p) "lightning-blue"
  then injectLightningBlueStyles inst document
  else (inst, document).

Definition componentDidMount (inst : Instance) (document : gmap nat Dom.Node)
  : Instance * gmap nat Dom.Node :=
  match styleTag inst with
  | Some tag =>
      if negb (hasRepaintedTheme inst) && strict_eq_str (theme (props inst)) "lightning-blue"
      then ({| props := props inst; generatedId := generatedId inst;
               hasRepaintedTheme := true; styleTag := styleTag inst |},
            Dom.set_innerHTML tag (getLightningBlueStyles (VNum 1)) document)
      else (inst, document)
  | None => (inst, document)
  end.

Definition componentWillUnmount (inst : Instance) (document : gmap nat Dom.Node)
  : result (gmap nat Dom.Node) :=
  match styleTag inst with
  | Some tag =>
      match document !! tag ≫= Dom.parentElement with
      | Some parent => Ok (Dom.removeChild parent tag document)
      | None => Throw (TypeError "removeChild")
      end
  | None => Ok document
  end.

Definition render (inst : Instance) : Markup :=
  let props := props inst in
  {| container_style :=
       spread (styleContainer props)
       ∪ {[ "background" :=
              if strict_eq_str (theme props) "lightning-blue"
              then VStr "rgb(176, 196, 223)" else VStr "rgb(250, 250, 249)";
            "height" := VStr "100%";
            "position" := VStr "relative";
            "width" := VStr "100%";
            "zIndex" := VNum 1 ]};
     markup_className :=
       classNames
         [ ClassNames.Str "slds-brand-band";
           ClassNames.Obj
             [ ("slds-brand-band_small", strict_eq_str (size props) "small");
               ("slds-brand-band_medium", strict_eq_str (size props) "medium");
               ("slds-brand-band_large", strict_eq_str (size props) "large");
               ("slds-brand-band_none", strict_eq_str (image props) "none");
               ("dsr-brand-band_lightning-blue_"
                +:+ toString (VNum (if hasRepaintedTheme inst then 1 else 0)),
                strict_eq_str (theme props) "lightning-blue") ];
           className props ];
     markup_id := getId inst;
     markup_style := style props;
     markup_children := children props |}.

(** Mounting: the constructor on the props with their defaults, then
    [componentDidMount]. *)
Definition mount (p : Props) (generated : string) (document : gmap nat Dom.Node)
  : Instance * gmap nat Dom.Node :=
  let constructed := constructor (defaultProps p) generated document in
  componentDidMount constructed.1 constructed.2.

End Environment.

(** What holds of the style tag an instance keeps: the theme is
    ['lightning-blue'] and the tag is a [style] node with the style sheet of
    the current repaint number. *)
Definition styled (inst : Instance) (document : gmap nat Dom.Node) : Prop :=
  ∀ tag, styleTag inst = Some tag →
    theme (props inst) = VStr "lightning-blue"
    ∧ ∃ node,
        document !! tag = Some node
        ∧ Dom.tagName node = "style"
        ∧ Dom.type node = "text/css"
        ∧ Dom.innerHTML node
          = getLightningBlueStyles (VNum (if hasRepaintedTheme inst then 1 else 0)).

End BrandBand.

(** The node the style tag goes to: what [injectLightningBlueStyles] finds
    for the [styleInjectionTarget] prop, once the style tag is created. *)
Definition injectionTarget (querySelector : gmap nat Dom.Node → string → option nat)
    (p : BrandBand.Props) (document : gmap nat Dom.Node) : option nat :=
  match BrandBand.styleInjectionTarget p with
  | BrandBand.Selector selector =>
      querySelector (Dom.createElement document "style").2 selector
  | BrandBand.Element node => Some node
  | BrandBand.Undefined | BrandBand.Nothing => None
  end.

(** ** Further definitions *)


(** The children of the welcome mat that are elements with a truthy
    [isComplete], and those that are empty nodes. *)
Definition completeCount (children : list WelcomeMat.Child) : nat :=
  length (List.filter
            (λ c, match c with
                  | WelcomeMat.Element props => truthy (field props "isComplete")
                  | _ => false
                  end) children).


Module Cases.

(** An avatar that is a pre-built element, and no icon. *)
Definition photographed : Option.t :=
  {| Option.id := VStr "p1";
     Option.label := VStr "Paddy";
     Option.avatar :=
       VElement (Component "Avatar") None
         {[ "imgSrc" := VStr "/paddy.jpg"; "containerClassName" := VStr "mine" ]};
     Option.icon := VUndefined |}.

(** A read-only listbox of three options whose active index is 2. *)
Definition readonly : Props (string * gmap string value) :=
  {| activeOptionIndex := VNum 2;
     assistiveText := VObject {[ "selectedListboxLabel" := VStr "Selected Options:" ]};
     events := Some Sample.handlers;
     id := VStr "ro";
     isInline := VUndefined;
     isPillContainer := VUndefined;
     labels := VObject ∅;
     renderAtSelectionLength := Some 2;
     selection := [Sample.account; Sample.prebuilt; Sample.portrait];
     listboxHasFocus := VBool true;
     variant := VStr "readonly" |}.

(** The sample listbox with the active index left out. *)
Definition unfocused : Props (string * gmap string value) :=
  {| activeOptionIndex := VUndefined;
     assistiveText := VObject {[ "selectedListboxLabel" := VStr "Selected Options:" ]};
     events := Some Sample.handlers;
     id := VStr "listbox";
     isInline := VBool true;
     isPillContainer := VUndefined;
     labels := VObject ∅;
     renderAtSelectionLength := None;
     selection := [Sample.account; Sample.prebuilt; Sample.portrait];
     listboxHasFocus := VBool false;
     variant := VStr "inline-listbox" |}.

(** What a list of props renders, or an empty listbox. *)
Definition rendered (props : Props (string * gmap string value))
  : Listbox (string * gmap string value) :=
  match render props with
  | Ok (Some box) => box
  | _ => {| className := VUndefined; listbox_id := VUndefined; ul_className := "";
            aria_label := VUndefined; items := [] |}
  end.


(** Tiles preceded by a stray text. *)
Definition texted : list WelcomeMat.Child :=
  [ WelcomeMat.Element ∅; WelcomeMat.Text "Welcome" ].

(** Two locations of a map, the first of them selected; the callback hands
    back the location it is given. *)
Definition headquarters : Map.Location.t :=
  {| Map.Location.id := "1";
     Map.Location.name := "Worldwide Corporate Headquarters";
     Map.Location.address := "The Landmark @ One Market, San Francisco, CA" |}.

Definition tower : Map.Location.t :=
  {| Map.Location.id := "2";
     Map.Location.name := "Salesforce Tower";
     Map.Location.address := "415 Mission St, San Francisco, CA" |}.

Definition mapProps : Map.Props (option Map.Location.t) :=
  {| Map.className := ClassNames.Falsy;
     Map.classNameContainer := ClassNames.Str "office-map";
     Map.id := VUndefined;
     Map.labels := VUndefined;
     Map.locations := Some [headquarters; tower];
     Map.onClickLocation := Some (λ _ location, location);
     Map.googleAPIKey := VStr "KEY";
     Map.selection := Some headquarters |}.

Definition map : Map.Instance (option Map.Location.t) :=
  {| Map.props := mapProps; Map.generatedId := "r1Zx"; Map.iframe := true |}.

(** The same map with no location selected. *)
Definition unselected : Map.Instance (option Map.Location.t) :=
  {| Map.props :=
       {| Map.className := ClassNames.Falsy;
          Map.classNameContainer := ClassNames.Falsy;
          Map.id := VStr "offices";
          Map.labels := VObject {[ "title" := VStr "" ]};
          Map.locations := Some [headquarters; tower];
          Map.onClickLocation := None;
          Map.googleAPIKey := VStr "KEY";
          Map.selection := None |};
     Map.generatedId := "r1Zx";
     Map.iframe := false |}.

(** A document: [html] with a [head], holding a [title], and a [body]. *)
Definition page : gmap nat Dom.Node :=
  {[ 0%nat := {| Dom.tagName := "html"; Dom.innerHTML := ""; Dom.type := "";
                 Dom.children := [1; 2]%nat; Dom.parentElement := None |};
     1%nat := {| Dom.tagName := "head"; Dom.innerHTML := ""; Dom.type := "";
                 Dom.children := [3]%nat; Dom.parentElement := Some 0%nat |};
     2%nat := {| Dom.tagName := "body"; Dom.innerHTML := ""; Dom.type := "";
                 Dom.children := []; Dom.parentElement := Some 0%nat |};
     3%nat := {| Dom.tagName := "title"; Dom.innerHTML := "Home"; Dom.type := "";
                 Dom.children := []; Dom.parentElement := Some 1%nat |} ]}.

(** A [querySelector] that knows the head of [page] and nothing else. *)
Definition select (document : gmap nat Dom.Node) (selector : string) : option nat :=
  if String.eqb selector "head" then Some 1%nat else None.

(** A blue brand band with its injection target left to the default, and a
    plain one that restyles its container. *)
Definition blue : BrandBand.Props :=
  {| BrandBand.children := VNull;
     BrandBand.className := ClassNames.Falsy;
     BrandBand.id := VUndefined;
     BrandBand.image := VUndefined;
     BrandBand.size := VStr "large";
     BrandBand.style := VUndefined;
     BrandBand.styleContainer := VUndefined;
     BrandBand.styleInjectionTarget := BrandBand.Undefined;
     BrandBand.theme := VStr "lightning-blue" |}.

Definition plain : BrandBand.Props :=
  {| BrandBand.children := VNull;
     BrandBand.className := ClassNames.Falsy;
     BrandBand.id := VStr "band";
     BrandBand.image := VUndefined;
     BrandBand.size := VUndefined;
     BrandBand.style := VUndefined;
     BrandBand.styleContainer :=
       VObject {[ "background" := VStr "white"; "margin" := VNum 0 ]};
     BrandBand.styleInjectionTarget := BrandBand.Undefined;
     BrandBand.theme := VUndefined |}.


(** A [classNames] that joins the classes the package would. *)
Definition classes (args : list ClassNames.arg) : value :=
  VStr (ClassNames.classNames args).

(** The plain brand band, mounted on [page]. *)
Definition band : BrandBand.Instance :=
  (BrandBand.mount select plain "r1Zx" page).1.

End Cases.

(** ** Properties *)

(** *** The error monad and the array loops *)

Lemma bind_Ok_inv {A B : Type} (m : result A) (k : A → result B) (b : B) :
  m ≫= k = Ok b → ∃ a, m = Ok a ∧ k a = Ok b.
Proof. destruct m as [a|e]; [eauto | discriminate]. Qed.

Lemma map_from_Ok {A B : Type} (f : nat → A → result B) (l : list A) :
  ∀ (i : nat) (l' : list B),
    map_from f i l = Ok l' →
    length l' = length l
    ∧ ∀ (j : nat) (x : A), l !! j = Some x →
        ∃ y, l' !! j = Some y ∧ f (i + j)%nat x = Ok y.
Proof.
  induction l as [|x l IH]; intros i l' H; simpl in H.
  - injection H as <-. split; [done | intros j x Hj; discriminate Hj].
  - apply bind_Ok_inv in H as (y & Hy & H).
    apply bind_Ok_inv in H as (ys & Hys & H).
    injection H as <-.
    destruct (IH _ _ Hys) as [Hlen Hnth].
    split; [simpl; congruence |].
    intros [|j] x' Hj; simpl in Hj.
    + injection Hj as <-. exists y. by rewrite Nat.add_0_r.
    + destruct (Hnth _ _ Hj) as (y' & Hy' & Hf).
      exists y'. split; [done |]. by rewrite Nat.add_succ_r.
Qed.

Lemma Array_map_Ok {A B : Type} (f : nat → A → result B) (l : list A) (l' : list B) :
  Array_map f l = Ok l' →
  length l' = length l
  ∧ ∀ (j : nat) (x : A), l !! j = Some x → ∃ y, l' !! j = Some y ∧ f j x = Ok y.
Proof. apply map_from_Ok. Qed.

Lemma map_from_total {A B : Type} (f : nat → A → result B) (l : list A) :
  ∀ i : nat,
    (∀ (j : nat) (x : A), l !! j = Some x → ∃ y, f (i + j)%nat x = Ok y) →
    ∃ l', map_from f i l = Ok l'.
Proof.
  induction l as [|x l IH]; intros i Hf; simpl.
  - by exists [].
  - destruct (Hf 0%nat x eq_refl) as [y Hy].
    rewrite Nat.add_0_r in Hy. rewrite Hy. simpl.
    destruct (IH (S i)) as [ys Hys].
    { intros j x' Hj. rewrite Nat.add_succ_l, <- Nat.add_succ_r. by apply Hf. }
    rewrite Hys. by exists (y :: ys).
Qed.

Lemma nonempty_cons {A : Type} (l : list A) : l ≠ [] → ∃ x l', l = x :: l'.
Proof. destruct l; [done | eauto]. Qed.


Lemma map_from_head_Throw {A B : Type} (f : nat → A → result B)
    (i : nat) (x : A) (l : list A) (e : error) :
  f i x = Throw e → map_from f i (x :: l) = Throw e.
Proof. intros H. simpl. by rewrite H. Qed.

(** *** Values *)

Lemma truthy_field_present (fields : gmap string value) (k : string) :
  truthy (field fields k) = true → present fields k.
Proof.
  unfold field, present. destruct (fields !! k) as [x|]; simpl; [|discriminate].
  intros H. exists x. split; [done |]. by intros ->.
Qed.

Lemma truthy_element (v : value) : isReactComponent v = true → truthy v = true.
Proof. by destruct v. Qed.

Lemma cloneElement_containerClassName (type : elemType) (key : option string)
    (props : gmap string value) :
  React.cloneElement (VElement type key props)
    {[ "containerClassName" := VStr "slds-pill__icon_container" ]}
  = Ok (VElement type key
          (<[ "containerClassName" := VStr "slds-pill__icon_container" ]> props)).
Proof. simpl. by rewrite insert_union_singleton_l. Qed.

(** *** The icon and the avatar of an option *)

(** The four ways through [getIcon]. *)
Lemma getIcon_falsy (o : Option.t) :
  truthy (Option.icon o) = false → getIcon o = Ok VNull.
Proof. intros H. unfold getIcon. by rewrite H. Qed.

Lemma getIcon_element (o : Option.t) type key props :
  Option.icon o = VElement type key props →
  getIcon o = Ok (VElement type key
                    (<[ "containerClassName" := VStr "slds-pill__icon_container" ]> props)).
Proof.
  intros H. unfold getIcon. rewrite H. cbn [truthy isReactComponent].
  apply cloneElement_containerClassName.
Qed.

Lemma getIcon_descriptor (o : Option.t) (fields : gmap string value) :
  Option.icon o = VObject fields →
  getIcon o =
    Ok (if truthy (field fields "category") && truthy (field fields "name")
        then React.createElement (Component "Icon")
               {[ "category" := field fields "category";
                  "name" := field fields "name";
                  "title" := JS.or (field fields "title") (Option.label o) ]}
        else VNull).
Proof.
  intros H. unfold getIcon. rewrite H. cbn.
  destruct (truthy (field fields "category")) eqn:Hc; cbn; [|by rewrite Hc].
  by destruct (truthy (field fields "name")).
Qed.

Lemma getIcon_descriptor_truthy (o : Option.t) (fields : gmap string value) :
  Option.icon o = VObject fields →
  truthy (field fields "category") = true →
  truthy (field fields "name") = true →
  getIcon o =
    Ok (VElement (Component "Icon") None
          {[ "category" := field fields "category";
             "name" := field fields "name";
             "title" := JS.or (field fields "title") (Option.label o) ]}).
Proof. intros E Hc Hn. by rewrite (getIcon_descriptor o fields E), Hc, Hn. Qed.

Lemma getIcon_primitive (o : Option.t) :
  isReactComponent (Option.icon o) = false →
  (∀ fields, Option.icon o ≠ VObject fields) →
  getIcon o = Ok VNull.
Proof.
  intros Hc Ho. unfold getIcon.
  destruct (Option.icon o) as [| |b|n|s|fields|t k p] eqn:E; try done.
  - by destruct b.
  - cbn. by destruct (n =? 0).
  - cbn. by destruct (String.eqb s "").
  - by destruct (Ho fields).
Qed.

Lemma getAvatar_falsy (o : Option.t) :
  truthy (Option.avatar o) = false → getAvatar o = Ok VNull.
Proof. intros H. unfold getAvatar. by rewrite H. Qed.

Lemma getAvatar_element (o : Option.t) type key props :
  Option.avatar o = VElement type key props →
  getAvatar o = Ok (VElement type key
                      (<[ "containerClassName" := VStr "slds-pill__icon_container" ]> props)).
Proof.
  intros H. unfold getAvatar. rewrite H. cbn [truthy isReactComponent].
  apply cloneElement_containerClassName.
Qed.

Lemma getAvatar_descriptor (o : Option.t) (fields : gmap string value) :
  Option.avatar o = VObject fields →
  getAvatar o =
    Ok (if truthy (field fields "imgSrc")
        then React.createElement (Component "Avatar")
               {[ "imgSrc" := field fields "imgSrc";
                  "title" := JS.or (field fields "title") (Option.label o);
                  "variant" := JS.or (field fields "variant") (VStr "user") ]}
        else VNull).
Proof.
  intros H. unfold getAvatar. rewrite H. cbn.
  by destruct (truthy (field fields "imgSrc")).
Qed.

Lemma getAvatar_primitive (o : Option.t) :
  isReactComponent (Option.avatar o) = false →
  (∀ fields, Option.avatar o ≠ VObject fields) →
  getAvatar o = Ok VNull.
Proof.
  intros Hc Ho. unfold getAvatar.
  destruct (Option.avatar o) as [| |b|n|s|fields|t k p] eqn:E; try done.
  - by destruct b.
  - cbn. by destruct (n =? 0).
  - cbn. by destruct (String.eqb s "").
  - by destruct (Ho fields).
Qed.

(** Either function returns [null] or an element, and never raises. *)
Lemma getIcon_total (o : Option.t) :
  ∃ v, getIcon o = Ok v ∧ (v = VNull ∨ isReactComponent v = true).
Proof.
  destruct (Option.icon o) as [| |b|n|s|fields|t k p] eqn:E.
  6:{ rewrite (getIcon_descriptor o fields E).
      destruct (_ && _); eauto. }
  6:{ rewrite (getIcon_element o t k p E). eauto. }
  all: exists VNull; split; [|by left];
    apply getIcon_primitive; rewrite E; [done | by intros fields].
Qed.

Lemma getAvatar_total (o : Option.t) :
  ∃ v, getAvatar o = Ok v ∧ (v = VNull ∨ isReactComponent v = true).
Proof.
  destruct (Option.avatar o) as [| |b|n|s|fields|t k p] eqn:E.
  6:{ rewrite (getAvatar_descriptor o fields E).
      destruct (truthy _); eauto. }
  6:{ rewrite (getAvatar_element o t k p E). eauto. }
  all: exists VNull; split; [|by left];
    apply getAvatar_primitive; rewrite E; [done | by intros fields].
Qed.

(** C5: the icon takes precedence over the avatar. Resolving the visuals of
    an option always succeeds; whenever an icon resolves the avatar is
    [null], and the avatar is the result of [getAvatar] only when no icon
    resolved. *)
Theorem resolveVisual_icon_wins (o : Option.t) :
  ∃ icon avatar,
    resolveVisual o = Ok (icon, avatar)
    ∧ getIcon o = Ok icon
    ∧ (icon ≠ VNull → avatar = VNull)
    ∧ (icon = VNull → getAvatar o = Ok avatar).
Proof.
  destruct (getIcon_total o) as (icon & Hicon & [-> | Hel]).
  - destruct (getAvatar_total o) as (avatar & Havatar & _).
    exists VNull, avatar. unfold resolveVisual. rewrite Hicon. cbn.
    rewrite Havatar. by repeat split.
  - exists icon, VNull. unfold resolveVisual. rewrite Hicon. cbn.
    rewrite (truthy_element _ Hel). cbn.
    repeat split; try done. intros ->. discriminate Hel.
Qed.

(** C6: for an option whose icon is a pre-built visual, the resolved icon is
    that element (same type, same key) with [containerClassName] set to
    ['slds-pill__icon_container'] and every other prop as it was. *)
Theorem getIcon_prebuilt_frame (o : Option.t) :
  isReactComponent (Option.icon o) = true →
  ∃ type key props props',
    Option.icon o = VElement type key props
    ∧ getIcon o = Ok (VElement type key props')
    ∧ props' !! "containerClassName" = Some (VStr "slds-pill__icon_container")
    ∧ ∀ k, k ≠ "containerClassName" → props' !! k = props !! k.
Proof.
  intros H. destruct (Option.icon o) as [| | | | | |type key props] eqn:E; try discriminate H.
  exists type, key, props, (<[ "containerClassName" := VStr "slds-pill__icon_container" ]> props).
  split; [done |]. split; [by apply getIcon_element |].
  split; [apply lookup_insert_eq |].
  intros k Hk. by apply lookup_insert_ne.
Qed.

Lemma getIcon_prebuilt_frame_witness :
  isReactComponent (Option.icon Sample.prebuilt) = true
  ∧ ∃ type key props props',
      Option.icon Sample.prebuilt = VElement type key props
      ∧ getIcon Sample.prebuilt = Ok (VElement type key props')
      ∧ props' !! "containerClassName" = Some (VStr "slds-pill__icon_container")
      ∧ ∀ k, k ≠ "containerClassName" → props' !! k = props !! k.
Proof. split; [reflexivity | apply (getIcon_prebuilt_frame Sample.prebuilt); reflexivity]. Defined.

(** C7, as the specification words it, fails: a descriptor whose [title] is
    present but is the empty string gets the option's label as title. *)
Lemma icon_title_empty_string_counterexample :
  ¬ icon_title_as_specified Sample.untitled.
Proof.
  intros H.
  destruct (H _ eq_refl) as (props & Hicon & Htitle & _).
  - exists (VStr "standard"). by split.
  - exists (VStr "account"). by split.
  - rewrite (getIcon_descriptor_truthy Sample.untitled _ eq_refl eq_refl eq_refl) in Hicon.
    injection Hicon as <-.
    assert (present
      {[ "category" := VStr "standard"; "name" := VStr "account"; "title" := VStr "" ]}
      "title") as Hp by (exists (VStr ""); by split).
    apply Htitle in Hp. vm_compute in Hp. discriminate Hp.
Qed.

(** C7, amended: for an option whose icon is a descriptor with a truthy
    category and a truthy name, the synthesized icon's title is the
    descriptor's [title] when that is truthy, and the option's label
    otherwise. *)
Theorem getIcon_descriptor_title (o : Option.t) (fields : gmap string value) :
  Option.icon o = VObject fields →
  truthy (field fields "category") = true →
  truthy (field fields "name") = true →
  ∃ props,
    getIcon o = Ok (VElement (Component "Icon") None props)
    ∧ props !! "category" = Some (field fields "category")
    ∧ props !! "name" = Some (field fields "name")
    ∧ props !! "title" =
        Some (if truthy (field fields "title")
              then field fields "title" else Option.label o).
Proof.
  intros E Hc Hn. rewrite (getIcon_descriptor_truthy o fields E Hc Hn).
  eexists. split; [reflexivity |].
  by repeat split; simplify_map_eq.
Qed.

Lemma getIcon_descriptor_title_witness :
  ∃ props,
    getIcon Sample.account = Ok (VElement (Component "Icon") None props)
    ∧ props !! "category" = Some (VStr "standard")
    ∧ props !! "name" = Some (VStr "account")
    ∧ props !! "title" = Some (VStr "Acme").
Proof.
  exact (getIcon_descriptor_title Sample.account
           {[ "category" := VStr "standard"; "name" := VStr "account" ]}
           eq_refl eq_refl eq_refl).
Defined.

(** C8: resolving the icon and the avatar never raises and yields an element
    or [null]; an icon field that is absent, or is neither an element nor
    carries both a category and a name, yields [null]; an avatar field that
    is absent, or is neither an element nor carries an [imgSrc], yields
    [null]. *)
Theorem visual_resolution_total (o : Option.t) :
  (∃ v, getIcon o = Ok v ∧ (v = VNull ∨ isReactComponent v = true))
  ∧ (∃ v, getAvatar o = Ok v ∧ (v = VNull ∨ isReactComponent v = true))
  ∧ (Option.icon o = VUndefined → getIcon o = Ok VNull)
  ∧ (isReactComponent (Option.icon o) = false →
     ¬ (carries (Option.icon o) "category" ∧ carries (Option.icon o) "name") →
     getIcon o = Ok VNull)
  ∧ (Option.avatar o = VUndefined → getAvatar o = Ok VNull)
  ∧ (isReactComponent (Option.avatar o) = false →
     ¬ carries (Option.avatar o) "imgSrc" →
     getAvatar o = Ok VNull).
Proof.
  split; [apply getIcon_total |]. split; [apply getAvatar_total |].
  split; [intros E; apply getIcon_falsy; by rewrite E |].
  split; [|split; [intros E; apply getAvatar_falsy; by rewrite E |]].
  - intros Hc Hno.
    destruct (Option.icon o) as [| |b|n|s|fields|t k p] eqn:E.
    6:{ rewrite (getIcon_descriptor o fields E).
        destruct (truthy (field fields "category")) eqn:Hcat; [|done].
        destruct (truthy (field fields "name")) eqn:Hname; [|done].
        destruct Hno. split; exists fields; eauto using truthy_field_present. }
    all: apply getIcon_primitive; rewrite E; [done | by intros fields].
  - intros Hc Hno.
    destruct (Option.avatar o) as [| |b|n|s|fields|t k p] eqn:E.
    6:{ rewrite (getAvatar_descriptor o fields E).
        destruct (truthy (field fields "imgSrc")) eqn:Himg; [|done].
        destruct Hno. exists fields; eauto using truthy_field_present. }
    all: apply getAvatar_primitive; rewrite E; [done | by intros fields].
Qed.

(** *** Rendering the listbox *)

Lemma strict_eq_num_true (v : value) (n : Z) : strict_eq_num v n = true ↔ v = VNum n.
Proof.
  destruct v; simpl; try (split; [discriminate | congruence]).
  rewrite Z.eqb_eq. split; congruence.
Qed.

Lemma strict_eq_str_true (v : value) (s : string) : strict_eq_str v s = true ↔ v = VStr s.
Proof.
  destruct v as [| | | |t| |]; simpl; try (split; [discriminate | congruence]).
  rewrite String.eqb_eq. split; congruence.
Qed.

Lemma get_supplied (v : value) (k : string) : supplied v → ∃ x, get v k = Ok x.
Proof. intros [Hu Hn]. destruct v; simpl; eauto; done. Qed.

Lemma supplied_or_not (v : value) : supplied v ∨ v = VUndefined ∨ v = VNull.
Proof. destruct v; auto; left; split; discriminate. Qed.

Lemma reachesRenderLength_defaultProps {R : Type} (props : Props R) :
  reachesRenderLength (defaultProps props) = true
  ↔ renderLength props ≤ Z.of_nat (length (selection props)).
Proof.
  unfold reachesRenderLength, renderLength. simpl.
  destruct (renderAtSelectionLength props); simpl; apply Z.leb_le.
Qed.

Lemma resolveVisual_total (o : Option.t) : ∃ visual, resolveVisual o = Ok visual.
Proof.
  unfold resolveVisual.
  destruct (getIcon_total o) as (icon & -> & _). cbn.
  destruct (truthy icon); cbn; [eauto |].
  destruct (getAvatar_total o) as (avatar & -> & _). cbn. eauto.
Qed.

(** The default props change nothing that the callback of the loop reads. *)
Lemma renderItem_defaultProps {R : Type} (props : Props R) (i : nat) (o : Option.t) :
  renderItem (defaultProps props) i o = renderItem props i o.
Proof. reflexivity. Qed.

(** What a rendered item is made of. *)
Lemma renderItem_Ok_inv {R : Type} (props : Props R) (i : nat) (o : Option.t)
    (item : ListItem R) :
  renderItem props i o = Ok item →
  ∃ ev,
    events props = Some ev
    ∧ Pill.active (pill item) =
        strict_eq_num (activeOptionIndex props) (Z.of_nat i)
        || (strict_eq_num (activeOptionIndex props) (-1) && (i =? 0)%nat
            || strict_eq_str (variant props) "readonly"
               && negb (length (selection props) =? 1)%nat && (i =? 0)%nat)
    ∧ Pill.tabIndex (pill item) = (if Pill.active (pill item) then 0 else -1)
    ∧ Pill.eventData_option (pill item) = o
    ∧ Pill.labels_label (pill item) = Option.label o
    ∧ resolveVisual o = Ok (Pill.icon (pill item), Pill.avatar (pill item))
    ∧ Pill.onClick (Pill.events (pill item)) =
        (λ event data, onClickPill ev event (<[ "index" := VNum (Z.of_nat i) ]> data))
    ∧ Pill.onRequestRemove (Pill.events (pill item)) =
        (λ event data, onRequestRemove ev event (<[ "index" := VNum (Z.of_nat i) ]> data))
    ∧ Pill.onRequestFocus (Pill.events (pill item)) = onRequestFocus ev
    ∧ Pill.onRequestFocusOnNextPill (Pill.events (pill item)) = onRequestFocusOnNextPill ev
    ∧ Pill.onRequestFocusOnPreviousPill (Pill.events (pill item))
      = onRequestFocusOnPreviousPill ev
    ∧ key item = toString (id props) +:+ "-list-item-" +:+ toString (Option.id o).
Proof.
  unfold renderItem, get_events. intros H.
  apply bind_Ok_inv in H as ([icon avatar] & Hvisual & H).
  apply bind_Ok_inv in H as (removePill & _ & H).
  destruct (events props) as [ev|]; [|discriminate H].
  apply bind_Ok_inv in H as (ev' & [= <-] & H).
  apply bind_Ok_inv in H as (removePillTitle & _ & H).
  injection H as <-. exists ev. simpl. by rewrite Hvisual.
Qed.

Lemma renderItem_total {R : Type} (props : Props R) (ev : Events R)
    (i : nat) (o : Option.t) :
  supplied (assistiveText props) →
  supplied (labels props) →
  events props = Some ev →
  ∃ item, renderItem props i o = Ok item.
Proof.
  intros Ha Hl He. unfold renderItem, get_events.
  destruct (resolveVisual_total o) as (visual & ->).
  destruct (get_supplied _ "removePill" Ha) as (removePill & ->).
  destruct (get_supplied _ "removePillTitle" Hl) as (removePillTitle & ->).
  rewrite He. cbn. eauto.
Qed.

Lemma render_Ok_inv {R : Type} (props : Props R) (box : Listbox R) :
  render props = Ok (Some box) →
  renderLength props ≤ Z.of_nat (length (selection props))
  ∧ Array_map (renderItem props) (selection props) = Ok (items box).
Proof.
  unfold render, SelectedListBox. intros H.
  destruct (reachesRenderLength (defaultProps props)) eqn:Hlen; [|discriminate H].
  apply reachesRenderLength_defaultProps in Hlen. split; [done |].
  apply bind_Ok_inv in H as (selectedListboxLabel & _ & H).
  apply bind_Ok_inv in H as (its & Hits & H).
  injection H as <-. exact Hits.
Qed.

(** Every rendered item comes from the option at its index. *)
Lemma rendered_item_inv {R : Type} (props : Props R) (box : Listbox R)
    (i : nat) (item : ListItem R) :
  render props = Ok (Some box) →
  items box !! i = Some item →
  ∃ o, selection props !! i = Some o ∧ renderItem props i o = Ok item.
Proof.
  intros Hrender Hitem.
  apply render_Ok_inv in Hrender as [_ Hmap].
  apply Array_map_Ok in Hmap as [Hlen Hnth].
  destruct (selection props !! i) as [o|] eqn:Ho.
  - destruct (Hnth _ _ Ho) as (item' & Hitem' & Hf).
    exists o. split; [done |]. congruence.
  - apply lookup_ge_None in Ho. apply lookup_lt_Some in Hitem. lia.
Qed.

(** A selection that reaches the render length renders, item by item, when
    [assistiveText] is supplied and, unless the selection is empty, [labels]
    and [events] are. *)
Lemma render_supplied {R : Type} (props : Props R) :
  renderLength props ≤ Z.of_nat (length (selection props)) →
  supplied (assistiveText props) →
  (selection props ≠ [] → supplied (labels props) ∧ is_Some (events props)) →
  ∃ box,
    render props = Ok (Some box)
    ∧ length (items box) = length (selection props)
    ∧ ∀ i o, selection props !! i = Some o →
        ∃ item, items box !! i = Some item ∧ renderItem props i o = Ok item.
Proof.
  intros Hlen Ha Hitems.
  destruct (map_from_total (renderItem props) (selection props) 0) as (its & Hits).
  { intros j o Ho.
    destruct Hitems as [Hl [ev He]]; [by intros E; rewrite E in Ho |].
    by apply (renderItem_total props ev). }
  destruct (get_supplied _ "selectedListboxLabel" Ha) as (selectedListboxLabel & Hlabel).
  eexists. split.
  - unfold render, SelectedListBox.
    apply reachesRenderLength_defaultProps in Hlen. rewrite Hlen.
    change (assistiveText (defaultProps props)) with (assistiveText props).
    rewrite Hlabel.
    change (Array_map (renderItem (defaultProps props)) (selection (defaultProps props)))
      with (map_from (renderItem props) 0 (selection props)).
    rewrite Hits. reflexivity.
  - simpl. by apply Array_map_Ok in Hits.
Qed.

(** The sample listbox: three items in the order of the selection; with the
    active index -1 the first item alone is active; a remove request on the
    third item reaches the caller with index 2, a focus request with the
    payload as the token gave it. *)
Example render_sample_items :
  render Sample.props = Ok (Some Sample.box)
  ∧ ((λ item, key item) <$> items Sample.box)
    = ["listbox-list-item-7"; "listbox-list-item-3"; "listbox-list-item-3"]
  ∧ ((λ item, Pill.active (pill item)) <$> items Sample.box) = [true; false; false]
  ∧ ((λ item, Pill.tabIndex (pill item)) <$> items Sample.box) = [0; -1; -1].
Proof. by vm_compute. Qed.

Example render_sample_third_callbacks :
  ((λ item, Pill.onRequestRemove (Pill.events (pill item)) VUndefined ∅) <$> Sample.third)
  = Some ("onRequestRemove", {[ "index" := VNum 2 ]})
  ∧ ((λ item, Pill.onRequestFocus (Pill.events (pill item)) VUndefined ∅) <$> Sample.third)
    = Some ("onRequestFocus", ∅).
Proof. by vm_compute. Qed.

(** A pill container with nothing selected renders its empty list, although
    [labels] and [events] are absent: they are read once per item. *)
Example render_empty_container :
  ∃ box, render Sample.container = Ok (Some box) ∧ items box = [].
Proof. by eexists. Qed.

(** The three reads that can raise, in the order the render makes them. *)
Lemma render_raises_without_assistiveText {R : Type} (props : Props R) :
  renderLength props ≤ Z.of_nat (length (selection props)) →
  assistiveText props = VUndefined ∨ assistiveText props = VNull →
  render props = Throw (TypeError "selectedListboxLabel").
Proof.
  intros Hlen Ha. unfold render, SelectedListBox.
  apply reachesRenderLength_defaultProps in Hlen. rewrite Hlen.
  change (assistiveText (defaultProps props)) with (assistiveText props).
  by destruct Ha as [-> | ->].
Qed.

Lemma renderItem_raises_without_events {R : Type} (props : Props R)
    (i : nat) (o : Option.t) :
  supplied (assistiveText props) →
  events props = None →
  renderItem props i o = Throw (TypeError "onBlurPill").
Proof.
  intros Ha He. unfold renderItem, get_events.
  destruct (resolveVisual_total o) as (visual & ->).
  destruct (get_supplied _ "removePill" Ha) as (removePill & ->).
  by rewrite He.
Qed.

Lemma renderItem_raises_without_labels {R : Type} (props : Props R)
    (i : nat) (o : Option.t) :
  supplied (assistiveText props) →
  is_Some (events props) →
  labels props = VUndefined ∨ labels props = VNull →
  renderItem props i o = Throw (TypeError "removePillTitle").
Proof.
  intros Ha [ev He] Hl. unfold renderItem, get_events.
  destruct (resolveVisual_total o) as (visual & ->).
  destruct (get_supplied _ "removePill" Ha) as (removePill & ->).
  rewrite He. by destruct Hl as [-> | ->].
Qed.

Lemma render_raises_in_first_item {R : Type} (props : Props R)
    (o : Option.t) (l : list Option.t) (e : error) :
  renderLength props ≤ Z.of_nat (length (selection props)) →
  selection props = o :: l →
  supplied (assistiveText props) →
  renderItem props 0 o = Throw e →
  render props = Throw e.
Proof.
  intros Hlen Hsel Ha Hitem. unfold render, SelectedListBox.
  apply reachesRenderLength_defaultProps in Hlen. rewrite Hlen.
  change (assistiveText (defaultProps props)) with (assistiveText props).
  destruct (get_supplied _ "selectedListboxLabel" Ha) as (selectedListboxLabel & ->).
  change (Array_map (renderItem (defaultProps props)) (selection (defaultProps props)))
    with (map_from (renderItem props) 0 (selection props)).
  rewrite Hsel. by rewrite (map_from_head_Throw _ _ _ _ _ Hitem).
Qed.

(** C1, as the specification words it, fails: the focus-request handler of
    the token at render index 2 reaches the caller's handler with the
    token's payload as it is, and an empty payload has no index. *)
Lemma focus_request_index_counterexample :
  ∃ box item,
    render Sample.props = Ok (Some box)
    ∧ items box !! 2%nat = Some item
    ∧ ¬ injects_index (Pill.onRequestFocus (Pill.events (pill item)))
          (onRequestFocus Sample.handlers) 2.
Proof.
  destruct (render_supplied Sample.props) as (box & Hbox & _ & Hnth);
    [by vm_compute | by split | by split; [split |] |].
  destruct (Hnth 2%nat Sample.portrait eq_refl) as (item & Hitem & Hrender).
  exists box, item. split; [done |]. split; [done |].
  apply renderItem_Ok_inv in Hrender
    as (ev & [= <-] & _ & _ & _ & _ & _ & _ & _ & Hfocus & _).
  rewrite Hfocus. intros Hinj.
  destruct (Hinj VUndefined ∅) as (data' & Hindex & Hcall).
  injection Hcall as <-. by rewrite lookup_empty in Hindex.
Qed.

(** C1, amended: for every rendered item, at render index [i], the click and
    the remove-request callbacks invoke the caller's handler with the
    token's payload in which [index] is set to [i], whatever the option's
    id; the focus-request, focus-next-request and focus-previous-request
    callbacks are the caller's own handlers, handed on unchanged. *)
Theorem rendered_callbacks_index {R : Type} (props : Props R) (box : Listbox R)
    (i : nat) (item : ListItem R) :
  render props = Ok (Some box) →
  items box !! i = Some item →
  ∃ ev,
    events props = Some ev
    ∧ injects_index (Pill.onClick (Pill.events (pill item))) (onClickPill ev) i
    ∧ injects_index (Pill.onRequestRemove (Pill.events (pill item))) (onRequestRemove ev) i
    ∧ (∀ event data,
        Pill.onClick (Pill.events (pill item)) event data
        = onClickPill ev event (<[ "index" := VNum (Z.of_nat i) ]> data))
    ∧ (∀ event data,
        Pill.onRequestRemove (Pill.events (pill item)) event data
        = onRequestRemove ev event (<[ "index" := VNum (Z.of_nat i) ]> data))
    ∧ Pill.onRequestFocus (Pill.events (pill item)) = onRequestFocus ev
    ∧ Pill.onRequestFocusOnNextPill (Pill.events (pill item))
      = onRequestFocusOnNextPill ev
    ∧ Pill.onRequestFocusOnPreviousPill (Pill.events (pill item))
      = onRequestFocusOnPreviousPill ev.
Proof.
  intros Hrender Hitem.
  destruct (rendered_item_inv _ _ _ _ Hrender Hitem) as (o & _ & Ho).
  apply renderItem_Ok_inv in Ho
    as (ev & Hev & _ & _ & _ & _ & _ & Hclick & Hremove & Hfocus & Hnext & Hprev & _).
  exists ev. rewrite Hclick, Hremove.
  repeat split; try done.
  - intros event data. eexists. split; [apply lookup_insert_eq | reflexivity].
  - intros event data. eexists. split; [apply lookup_insert_eq | reflexivity].
Qed.

Lemma rendered_callbacks_index_witness :
  ∃ item,
    Sample.third = Some item
    ∧ render Sample.props = Ok (Some Sample.box)
    ∧ items Sample.box !! 2%nat = Some item
    ∧ ∃ ev,
        events Sample.props = Some ev
        ∧ injects_index (Pill.onClick (Pill.events (pill item))) (onClickPill ev) 2
        ∧ injects_index (Pill.onRequestRemove (Pill.events (pill item))) (onRequestRemove ev) 2
        ∧ (∀ event data,
            Pill.onClick (Pill.events (pill item)) event data
            = onClickPill ev event (<[ "index" := VNum 2 ]> data))
        ∧ (∀ event data,
            Pill.onRequestRemove (Pill.events (pill item)) event data
            = onRequestRemove ev event (<[ "index" := VNum 2 ]> data))
        ∧ Pill.onRequestFocus (Pill.events (pill item)) = onRequestFocus ev
        ∧ Pill.onRequestFocusOnNextPill (Pill.events (pill item))
          = onRequestFocusOnNextPill ev
        ∧ Pill.onRequestFocusOnPreviousPill (Pill.events (pill item))
          = onRequestFocusOnPreviousPill ev.
Proof.
  destruct Sample.third as [item|] eqn:E; [|discriminate E].
  exists item. split; [reflexivity |].
  assert (render Sample.props = Ok (Some Sample.box)) as Hbox by reflexivity.
  split; [exact Hbox |]. split; [exact E |].
  exact (rendered_callbacks_index Sample.props Sample.box 2 item Hbox E).
Defined.

(** C2: the active flag of the item at render index [i] is true exactly when
    [i] is the active option index, or the active option index is -1 and
    [i] is 0, or the variant is ['readonly'], the selection does not have
    length 1 and [i] is 0; the tab index is 0 for the active item and -1
    for the others. *)
Theorem rendered_item_active {R : Type} (props : Props R) (box : Listbox R)
    (i : nat) (item : ListItem R) :
  render props = Ok (Some box) →
  items box !! i = Some item →
  (Pill.active (pill item) = true
   ↔ activeOptionIndex props = VNum (Z.of_nat i)
     ∨ (activeOptionIndex props = VNum (-1) ∧ i = 0%nat)
     ∨ (variant props = VStr "readonly" ∧ length (selection props) ≠ 1%nat ∧ i = 0%nat))
  ∧ Pill.tabIndex (pill item) = (if Pill.active (pill item) then 0 else -1).
Proof.
  intros Hrender Hitem.
  destruct (rendered_item_inv _ _ _ _ Hrender Hitem) as (o & _ & Ho).
  apply renderItem_Ok_inv in Ho as (ev & _ & Hactive & Htab & _).
  split; [|exact Htab].
  rewrite Hactive, !orb_true_iff, !andb_true_iff, negb_true_iff.
  rewrite !strict_eq_num_true, strict_eq_str_true, Nat.eqb_eq, Nat.eqb_neq.
  tauto.
Qed.

Lemma rendered_item_active_witness :
  ∃ item,
    render Sample.props = Ok (Some Sample.box)
    ∧ items Sample.box !! 0%nat = Some item
    ∧ (Pill.active (pill item) = true
       ↔ activeOptionIndex Sample.props = VNum 0
         ∨ (activeOptionIndex Sample.props = VNum (-1) ∧ 0%nat = 0%nat)
         ∨ (variant Sample.props = VStr "readonly"
            ∧ length (selection Sample.props) ≠ 1%nat ∧ 0%nat = 0%nat))
    ∧ Pill.tabIndex (pill item) = (if Pill.active (pill item) then 0 else -1).
Proof.
  destruct Sample.first as [item|] eqn:E; [|discriminate E].
  exists item.
  assert (render Sample.props = Ok (Some Sample.box)) as Hbox by reflexivity.
  split; [exact Hbox |]. split; [exact E |].
  exact (rendered_item_active Sample.props Sample.box 0 item Hbox E).
Defined.

(** C3: a selection shorter than the render length renders [null], whatever
    the other props; with the default render length, 1, an empty selection
    renders nothing. *)
Theorem render_below_length_null {R : Type} (props : Props R) :
  (Z.of_nat (length (selection props)) < renderLength props → render props = Ok None)
  ∧ (renderAtSelectionLength props = None →
     renderLength props = 1
     ∧ (selection props = [] → render props = Ok None)).
Proof.
  assert (Z.of_nat (length (selection props)) < renderLength props →
          render props = Ok None) as Hbelow.
  { intros Hlt. unfold render, SelectedListBox.
    destruct (reachesRenderLength (defaultProps props)) eqn:Hlen; [|done].
    apply reachesRenderLength_defaultProps in Hlen. lia. }
  split; [exact Hbelow |].
  intros Hdefault.
  assert (renderLength props = 1) as Hone by (unfold renderLength; by rewrite Hdefault).
  split; [exact Hone |].
  intros Hempty. apply Hbelow. rewrite Hempty, Hone. done.
Qed.

Lemma render_below_length_null_witness :
  Z.of_nat (length (selection Sample.empty)) < renderLength Sample.empty
  ∧ renderAtSelectionLength Sample.empty = None
  ∧ selection Sample.empty = []
  ∧ render Sample.empty = Ok None
  ∧ renderLength Sample.empty = 1.
Proof.
  destruct (render_below_length_null Sample.empty) as [Hbelow Hdefault].
  split; [reflexivity |]. split; [reflexivity |]. split; [reflexivity |].
  split; [apply Hbelow; reflexivity | apply (Hdefault eq_refl)].
Defined.



(** C9: neither [assistiveText] nor [labels] has a default, and the render
    reads a field of each. When the selection reaches the render length, an
    absent [assistiveText] raises at [selectedListboxLabel]; when moreover
    the selection is not empty, a render with either prop absent raises a
    [TypeError], and with only [labels] absent it is the read of
    [removePillTitle] that raises. *)
Theorem render_absent_required_props {R : Type} (props : Props R) :
  renderLength props ≤ Z.of_nat (length (selection props)) →
  (assistiveText props = VUndefined →
   render props = Throw (TypeError "selectedListboxLabel"))
  ∧ (selection props ≠ [] →
     assistiveText props = VUndefined ∨ labels props = VUndefined →
     ∃ reading, render props = Throw (TypeError reading))
  ∧ (selection props ≠ [] →
     supplied (assistiveText props) →
     is_Some (events props) →
     labels props = VUndefined →
     render props = Throw (TypeError "removePillTitle")).
Proof.
  intros Hlen.
  assert (assistiveText props = VUndefined →
          render props = Throw (TypeError "selectedListboxLabel")) as Hfirst.
  { intros E. apply render_raises_without_assistiveText; auto. }
  assert (selection props ≠ [] → supplied (assistiveText props) →
          is_Some (events props) → labels props = VUndefined →
          render props = Throw (TypeError "removePillTitle")) as Hthird.
  { intros Hsel Ha He Hl.
    destruct (nonempty_cons _ Hsel) as (o & l & E).
    apply (render_raises_in_first_item props o l); auto.
    apply renderItem_raises_without_labels; auto. }
  split; [exact Hfirst |]. split; [|exact Hthird].
  intros Hsel [E | Hl]; [eauto |].
  destruct (supplied_or_not (assistiveText props)) as [Ha | Ha].
  - destruct (events props) as [ev|] eqn:He.
    + exists "removePillTitle". apply Hthird; eauto.
    + destruct (nonempty_cons _ Hsel) as (o & l & E).
      exists "onBlurPill". apply (render_raises_in_first_item props o l); auto.
      by apply renderItem_raises_without_events.
  - exists "selectedListboxLabel". by apply render_raises_without_assistiveText.
Qed.

Lemma render_absent_required_props_witness :
  renderLength Sample.bare ≤ Z.of_nat (length (selection Sample.bare))
  ∧ selection Sample.bare ≠ []
  ∧ assistiveText Sample.bare = VUndefined
  ∧ render Sample.bare = Throw (TypeError "selectedListboxLabel")
  ∧ (∃ reading, render Sample.bare = Throw (TypeError reading))
  ∧ supplied (assistiveText Sample.unlabelled)
  ∧ is_Some (events Sample.unlabelled)
  ∧ labels Sample.unlabelled = VUndefined
  ∧ render Sample.unlabelled = Throw (TypeError "removePillTitle").
Proof.
  assert (renderLength Sample.bare ≤ Z.of_nat (length (selection Sample.bare))) as Hlen
    by (vm_compute; discriminate).
  assert (renderLength Sample.unlabelled
          ≤ Z.of_nat (length (selection Sample.unlabelled))) as Hlen'
    by (vm_compute; discriminate).
  assert (supplied (assistiveText Sample.unlabelled)) as Ha by (split; discriminate).
  assert (is_Some (events Sample.unlabelled)) as He by (by exists Sample.handlers).
  destruct (render_absent_required_props Sample.bare Hlen) as (Hfirst & Hsecond & _).
  destruct (render_absent_required_props Sample.unlabelled Hlen') as (_ & _ & Hthird).
  split; [exact Hlen |]. split; [discriminate |]. split; [reflexivity |].
  split; [apply Hfirst; reflexivity |].
  split; [apply Hsecond; [discriminate | by left] |].
  split; [exact Ha |]. split; [exact He |]. split; [reflexivity |].
  apply Hthird; [discriminate | exact Ha | exact He | reflexivity].
Defined.

(** *** The welcome mat *)

(** C10: [getCount] divides by the number of children without a guard: for
    a welcome mat mounted with zero children it succeeds, and the progress
    it stores is 0 / 0 * 100, which is not a number, rather than 0. *)
Theorem getCount_zero_children (children : list WelcomeMat.Child)
    (state : WelcomeMat.State) :
  WelcomeMat.Children_count children = 0%nat →
  ∃ state',
    WelcomeMat.getCount children state = Ok state'
    ∧ WelcomeMat.componentWillMount children = Ok state'
    ∧ WelcomeMat.totalSteps state' = 0%float
    ∧ WelcomeMat.completedSteps state' = 0%float
    ∧ WelcomeMat.progress state' = (0 / 0 * 100)%float
    ∧ PrimFloat.is_nan (WelcomeMat.progress state') = true
    ∧ PrimFloat.eqb (WelcomeMat.progress state') 0 = false.
Proof.
  intros Hcount. apply nil_length_inv in Hcount as ->.
  eexists. split; [reflexivity |]. by repeat split.
Qed.

Lemma getCount_zero_children_witness :
  WelcomeMat.Children_count [] = 0%nat
  ∧ ∃ state',
      WelcomeMat.getCount [] WelcomeMat.initialState = Ok state'
      ∧ WelcomeMat.componentWillMount [] = Ok state'
      ∧ WelcomeMat.totalSteps state' = 0%float
      ∧ WelcomeMat.completedSteps state' = 0%float
      ∧ WelcomeMat.progress state' = (0 / 0 * 100)%float
      ∧ PrimFloat.is_nan (WelcomeMat.progress state') = true
      ∧ PrimFloat.eqb (WelcomeMat.progress state') 0 = false.
Proof.
  split; [reflexivity |].
  apply (getCount_zero_children [] WelcomeMat.initialState). reflexivity.
Defined.

(** ** Further properties of the listbox *)

(** *** The avatar of an option *)



(** X2: A pre-built avatar keeps its type, its key and its props; only
    [containerClassName] is set, over whatever the caller had put there. *)
Theorem getAvatar_prebuilt_frame (o : Option.t) :
  isReactComponent (Option.avatar o) = true →
  ∃ type key props props',
    Option.avatar o = VElement type key props
    ∧ getAvatar o = Ok (VElement type key props')
    ∧ props' !! "containerClassName" = Some (VStr "slds-pill__icon_container")
    ∧ ∀ k, k ≠ "containerClassName" → props' !! k = props !! k.
Proof.
  intros H.
  destruct (Option.avatar o) as [| | | | | |type key props] eqn:E; try discriminate H.
  exists type, key, props,
    (<[ "containerClassName" := VStr "slds-pill__icon_container" ]> props).
  split; [done |]. split; [by apply getAvatar_element |].
  split; [apply lookup_insert_eq |].
  intros k Hk. by apply lookup_insert_ne.
Qed.

Lemma getAvatar_prebuilt_frame_witness :
  isReactComponent (Option.avatar Cases.photographed) = true
  ∧ ∃ type key props props',
      Option.avatar Cases.photographed = VElement type key props
      ∧ getAvatar Cases.photographed = Ok (VElement type key props')
      ∧ props' !! "containerClassName" = Some (VStr "slds-pill__icon_container")
      ∧ ∀ k, k ≠ "containerClassName" → props' !! k = props !! k.
Proof.
  split; [reflexivity |].
  apply (getAvatar_prebuilt_frame Cases.photographed). reflexivity.
Defined.

(** *** When the render completes, and how it fails *)






(** *** Which items are tab stops *)

Lemma rendered_active_spec {R : Type} (props : Props R) (box : Listbox R)
    (i : nat) (item : ListItem R) :
  render props = Ok (Some box) →
  items box !! i = Some item →
  (i < length (selection props))%nat
  ∧ Pill.tabIndex (pill item) = (if Pill.active (pill item) then 0 else -1)
  ∧ (Pill.active (pill item) = true
     ↔ activeOptionIndex props = VNum (Z.of_nat i)
       ∨ (activeOptionIndex props = VNum (-1) ∧ i = 0%nat)
       ∨ (variant props = VStr "readonly"
          ∧ length (selection props) ≠ 1%nat ∧ i = 0%nat)).
Proof.
  intros Hrender Hitem.
  destruct (rendered_item_inv _ _ _ _ Hrender Hitem) as (o & Hsel & Ho).
  apply renderItem_Ok_inv in Ho as (ev & _ & Hactive & Htab & _).
  split; [by apply lookup_lt_Some in Hsel |]. split; [done |].
  rewrite Hactive, !orb_true_iff, !andb_true_iff, negb_true_iff.
  rewrite !strict_eq_num_true, strict_eq_str_true, Nat.eqb_eq, Nat.eqb_neq.
  tauto.
Qed.

(** X5: Unless the variant is ['readonly'], a rendered listbox has at most one
    active item, hence at most one tab stop. *)
Theorem at_most_one_active {R : Type} (props : Props R) (box : Listbox R)
    (i j : nat) (a b : ListItem R) :
  variant props ≠ VStr "readonly" →
  render props = Ok (Some box) →
  items box !! i = Some a →
  items box !! j = Some b →
  Pill.active (pill a) = true →
  Pill.active (pill b) = true →
  i = j.
Proof.
  intros Hvariant Hrender Ha Hb Hactive_a Hactive_b.
  destruct (rendered_active_spec _ _ _ _ Hrender Ha) as (_ & _ & Hiff_a).
  destruct (rendered_active_spec _ _ _ _ Hrender Hb) as (_ & _ & Hiff_b).
  apply Hiff_a in Hactive_a. apply Hiff_b in Hactive_b.
  destruct Hactive_a as [Ei | [[Ei ->] | [? _]]]; [| |done];
    destruct Hactive_b as [Ej | [[Ej ->] | [? _]]]; try done;
    rewrite Ei in Ej; injection Ej; lia.
Qed.

Lemma at_most_one_active_witness :
  ∃ a,
    Sample.first = Some a
    ∧ variant Sample.props ≠ VStr "readonly"
    ∧ render Sample.props = Ok (Some Sample.box)
    ∧ Pill.active (pill a) = true
    ∧ 0%nat = 0%nat.
Proof.
  destruct Sample.first as [a|] eqn:E; [|discriminate E].
  exists a. split; [reflexivity |].
  assert (variant Sample.props ≠ VStr "readonly") as Hvariant by discriminate.
  assert (render Sample.props = Ok (Some Sample.box)) as Hbox by reflexivity.
  assert (Pill.active (pill a) = true) as Hactive.
  { revert E. unfold Sample.first. vm_compute. by intros [= <-]. }
  split; [exact Hvariant |]. split; [exact Hbox |]. split; [exact Hactive |].
  exact (at_most_one_active Sample.props Sample.box 0 0 a a
           Hvariant Hbox E E Hactive Hactive).
Defined.

(** X6: Unless the variant is ['readonly'], an active index that is neither -1
    nor the index of an option (left out, say, or past the end) leaves every
    item inactive: no pill of the listbox is a tab stop. *)
Theorem no_active_item {R : Type} (props : Props R) (box : Listbox R)
    (i : nat) (item : ListItem R) :
  variant props ≠ VStr "readonly" →
  activeOptionIndex props ≠ VNum (-1) →
  (∀ k : nat, (k < length (selection props))%nat →
     activeOptionIndex props ≠ VNum (Z.of_nat k)) →
  render props = Ok (Some box) →
  items box !! i = Some item →
  Pill.active (pill item) = false ∧ Pill.tabIndex (pill item) = -1.
Proof.
  intros Hvariant Hnone Hindex Hrender Hitem.
  destruct (rendered_active_spec _ _ _ _ Hrender Hitem) as (Hlt & Htab & Hiff).
  destruct (Pill.active (pill item)); [|done].
  destruct Hiff as [Hiff _].
  destruct (Hiff eq_refl) as [E | [[E _] | [E _]]]; [|done..].
  by destruct (Hindex i Hlt).
Qed.

Lemma no_active_item_witness :
  ∃ item,
    items (Cases.rendered Cases.unfocused) !! 1%nat = Some item
    ∧ Pill.active (pill item) = false ∧ Pill.tabIndex (pill item) = -1.
Proof.
  destruct (items (Cases.rendered Cases.unfocused) !! 1%nat) as [item|] eqn:E;
    [|discriminate E].
  exists item. split; [reflexivity |].
  apply (no_active_item Cases.unfocused (Cases.rendered Cases.unfocused) 1 item).
  - discriminate.
  - discriminate.
  - intros k _. discriminate.
  - reflexivity.
  - exact E.
Defined.

(** X7: A read-only listbox of several options whose active index is not the
    first one has two active items, the first and that one: two tab stops. *)
Theorem readonly_two_active {R : Type} (props : Props R) (box : Listbox R)
    (k : nat) (a b : ListItem R) :
  variant props = VStr "readonly" →
  activeOptionIndex props = VNum (Z.of_nat k) →
  k ≠ 0%nat →
  render props = Ok (Some box) →
  items box !! 0%nat = Some a →
  items box !! k = Some b →
  Pill.active (pill a) = true ∧ Pill.tabIndex (pill a) = 0
  ∧ Pill.active (pill b) = true ∧ Pill.tabIndex (pill b) = 0.
Proof.
  intros Hvariant Hindex Hk Hrender Ha Hb.
  destruct (rendered_active_spec _ _ _ _ Hrender Ha) as (_ & Htab_a & Hiff_a).
  destruct (rendered_active_spec _ _ _ _ Hrender Hb) as (Hlt & Htab_b & Hiff_b).
  assert (Pill.active (pill a) = true) as Hactive_a.
  { apply Hiff_a. right. right. split; [done |]. split; [lia | done]. }
  assert (Pill.active (pill b) = true) as Hactive_b by (apply Hiff_b; by left).
  rewrite Hactive_a in Htab_a. rewrite Hactive_b in Htab_b. done.
Qed.

Lemma readonly_two_active_witness :
  ∃ a b,
    items (Cases.rendered Cases.readonly) !! 0%nat = Some a
    ∧ items (Cases.rendered Cases.readonly) !! 2%nat = Some b
    ∧ Pill.active (pill a) = true ∧ Pill.tabIndex (pill a) = 0
    ∧ Pill.active (pill b) = true ∧ Pill.tabIndex (pill b) = 0.
Proof.
  destruct (items (Cases.rendered Cases.readonly) !! 0%nat) as [a|] eqn:Ea;
    [|discriminate Ea].
  destruct (items (Cases.rendered Cases.readonly) !! 2%nat) as [b|] eqn:Eb;
    [|discriminate Eb].
  exists a, b. split; [reflexivity |]. split; [reflexivity |].
  apply (readonly_two_active Cases.readonly (Cases.rendered Cases.readonly) 2 a b);
    [reflexivity | reflexivity | discriminate | reflexivity | exact Ea | exact Eb].
Defined.

(** *** The keys of the items *)

(** X8: Two items of a rendered listbox have the same React key exactly when the
    ids of their options print alike: the listbox adds nothing that tells
    apart two options with the same id, or the ids [3] and ['3']. *)
Theorem item_keys_collide_iff {R : Type} (props : Props R) (box : Listbox R)
    (i j : nat) (a b : ListItem R) (oi oj : Option.t) :
  render props = Ok (Some box) →
  items box !! i = Some a →
  items box !! j = Some b →
  selection props !! i = Some oi →
  selection props !! j = Some oj →
  key a = key b ↔ toString (Option.id oi) = toString (Option.id oj).
Proof.
  intros Hrender Ha Hb Hoi Hoj.
  destruct (rendered_item_inv _ _ _ _ Hrender Ha) as (oi' & Hoi' & Hitem_a).
  destruct (rendered_item_inv _ _ _ _ Hrender Hb) as (oj' & Hoj' & Hitem_b).
  assert (oi' = oi) as -> by congruence. assert (oj' = oj) as -> by congruence.
  apply renderItem_Ok_inv in Hitem_a as (_ & _ & _ & _ & _ & _ & _ & _ & _ & _ & _ & _ & ->).
  apply renderItem_Ok_inv in Hitem_b as (_ & _ & _ & _ & _ & _ & _ & _ & _ & _ & _ & _ & ->).
  split; [|by intros ->].
  intros H. by do 2 apply (inj (String.app _)) in H.
Qed.

Lemma item_keys_collide_iff_witness :
  ∃ a b,
    items Sample.box !! 1%nat = Some a
    ∧ items Sample.box !! 2%nat = Some b
    ∧ (key a = key b
       ↔ toString (Option.id Sample.prebuilt) = toString (Option.id Sample.portrait))
    ∧ key a = key b.
Proof.
  destruct (items Sample.box !! 1%nat) as [a|] eqn:Ea; [|discriminate Ea].
  destruct (items Sample.box !! 2%nat) as [b|] eqn:Eb; [|discriminate Eb].
  exists a, b. split; [reflexivity |]. split; [reflexivity |].
  assert (render Sample.props = Ok (Some Sample.box)) as Hbox by reflexivity.
  pose proof (item_keys_collide_iff Sample.props Sample.box 1 2 a b
                Sample.prebuilt Sample.portrait Hbox Ea Eb eq_refl eq_refl) as Hiff.
  split; [exact Hiff |]. apply Hiff. reflexivity.
Defined.

(** ** Further properties of the welcome mat *)

Lemma filter_isComplete_Ok (children : list WelcomeMat.Child) :
  (∀ s, WelcomeMat.Text s ∉ children) →
  ∃ completed,
    Array_filter WelcomeMat.isComplete (WelcomeMat.Children_toArray children)
    = Ok completed
    ∧ length completed = completeCount children.
Proof.
  unfold completeCount.
  induction children as [|c children IH]; intros Htext; [by exists [] |].
  destruct IH as (completed & Hcompleted & Hlength).
  { intros s Hs. apply (Htext s). by right. }
  destruct c as [|s|props]; simpl.
  - eauto.
  - destruct (Htext s). by left.
  - fold (WelcomeMat.Children_toArray children). rewrite Hcompleted. simpl.
    destruct (truthy (field props "isComplete")); simpl;
      (eexists; split; [reflexivity |]); simpl; congruence.
Qed.

Lemma filter_isComplete_Throw (children : list WelcomeMat.Child) (s : string) :
  WelcomeMat.Text s ∈ children →
  Array_filter WelcomeMat.isComplete (WelcomeMat.Children_toArray children)
  = Throw (TypeError "isComplete").
Proof.
  induction children as [|c children IH]; intros Htext; [by apply elem_of_nil in Htext |].
  apply elem_of_cons in Htext as [<- | Htext]; [done |].
  destruct c as [|s'|props]; simpl; [by apply IH | done |].
  fold (WelcomeMat.Children_toArray children). by rewrite (IH Htext).
Qed.

(** X9: [getCount] completes exactly when no child is a text: a string or a
    number among the children has no [props], and reading [isComplete] from
    it raises. *)
Theorem getCount_completes_iff (children : list WelcomeMat.Child)
    (state : WelcomeMat.State) :
  ((∃ state', WelcomeMat.getCount children state = Ok state')
   ↔ ∀ s, WelcomeMat.Text s ∉ children)
  ∧ ((∃ s, WelcomeMat.Text s ∈ children)
     → WelcomeMat.getCount children state = Throw (TypeError "isComplete")).
Proof.
  assert ((∃ s, WelcomeMat.Text s ∈ children)
          → WelcomeMat.getCount children state = Throw (TypeError "isComplete"))
    as Hraise.
  { intros [s Hs]. unfold WelcomeMat.getCount.
    by rewrite (filter_isComplete_Throw children s Hs). }
  split; [|exact Hraise]. split.
  - intros [state' Hstate'] s Hs. rewrite Hraise in Hstate' by eauto. discriminate.
  - intros Htext. unfold WelcomeMat.getCount.
    destruct (filter_isComplete_Ok children Htext) as (completed & -> & _).
    simpl. eauto.
Qed.



Lemma getCount_completes_iff_witness :
  (∃ s, WelcomeMat.Text s ∈ Cases.texted)
  ∧ WelcomeMat.getCount Cases.texted WelcomeMat.initialState
    = Throw (TypeError "isComplete").
Proof.
  assert (∃ s, WelcomeMat.Text s ∈ Cases.texted) as Htext.
  { exists "Welcome". unfold Cases.texted. set_solver. }
  split; [exact Htext |].
  destruct (getCount_completes_iff Cases.texted WelcomeMat.initialState) as [_ Hraise].
  exact (Hraise Htext).
Defined.

(** ** Properties of the map *)

(** What a completed render of the map is made of. *)
Lemma map_render_inv {R : Type} (inst : Map.Instance R) (m : Map.Markup R) :
  Map.render inst = Ok m →
  ∃ l,
    Map.locations (Map.props inst) = Some l
    ∧ Map.title m
      = field (spread (Map.labels (Map.props inst)) ∪ Map.defaultProps_labels) "title"
    ∧ Map.src m
      = "https://www.google.com/maps/embed/v1/place?key="
        +:+ toString (Map.googleAPIKey (Map.props inst)) +:+ "&q="
        +:+ encodeURIComponent
              (match Map.selection (Map.props inst) with
               | Some selected => Map.Location.address selected
               | None => ""
               end)
    ∧ ((length l ≤ 1)%nat → Map.coordinates m = None)
    ∧ ((1 < length l)%nat →
       ∃ items,
         Array_map (Map.renderLocation inst) l = Ok items
         ∧ Map.coordinates m
           = Some {| Map.coordinates_title :=
                       toString (Map.title m) +:+ " (" +:+ pretty (length l) +:+ ")";
                     Map.items := items |}).
Proof.
  unfold Map.render. intros H.
  destruct (Map.locations (Map.props inst)) as [l|]; [|discriminate H].
  apply bind_Ok_inv in H as (l' & [= <-] & H).
  apply bind_Ok_inv in H as (coordinates & Hcoordinates & H).
  injection H as <-. exists l. simpl. repeat split.
  - intros Hle. apply Nat.ltb_ge in Hle. rewrite Hle in Hcoordinates. congruence.
  - intros Hlt. apply Nat.ltb_lt in Hlt. rewrite Hlt in Hcoordinates.
    apply bind_Ok_inv in Hcoordinates as (items & Hitems & Hcoordinates).
    exists items. split; [done | congruence].
Qed.

Lemma renderLocation_Ok_inv {R : Type} (inst : Map.Instance R) (i : nat)
    (location : Map.Location.t) (item : Map.Item R) :
  Map.renderLocation inst i location = Ok item →
  ∃ selected,
    Map.selection (Map.props inst) = Some selected
    ∧ Map.key item = Map.Location.id location
    ∧ Map.link item = Map.Location.name location
    ∧ Map.address_text item = Map.Location.address location
    ∧ Map.onClick item = (λ event, Map.handleClick inst event i)
    ∧ (Map.aria_pressed item = true
       ↔ Map.Location.id selected = Map.Location.id location).
Proof.
  unfold Map.renderLocation. intros H.
  destruct (Map.selection (Map.props inst)) as [selected|]; [|discriminate H].
  apply bind_Ok_inv in H as (pressed & [= <-] & H). injection H as <-.
  exists selected. simpl. repeat split; try done; by apply String.eqb_eq.
Qed.

(** X11: With no location selected, the frame asks for the empty query and a map
    of at most one location renders; with more locations the render raises
    on the [id] of the selection, a read which, unlike the one of the
    address, is not guarded. *)
Theorem map_render_without_selection {R : Type} (inst : Map.Instance R)
    (l : list Map.Location.t) :
  Map.selection (Map.props inst) = None →
  Map.locations (Map.props inst) = Some l →
  ((1 < length l)%nat → Map.render inst = Throw (TypeError "id"))
  ∧ ((length l ≤ 1)%nat →
     ∃ m,
       Map.render inst = Ok m
       ∧ Map.coordinates m = None
       ∧ Map.src m
         = "https://www.google.com/maps/embed/v1/place?key="
           +:+ toString (Map.googleAPIKey (Map.props inst)) +:+ "&q=").
Proof.
  intros Hselection Hlocations. unfold Map.render. rewrite Hlocations, Hselection.
  split.
  - intros Hlt. apply Nat.ltb_lt in Hlt as Hltb.
    cbn -[Nat.ltb length Array_map]. rewrite Hltb.
    destruct l as [|location l]; [simpl in Hlt; lia |].
    unfold Array_map.
    rewrite (map_from_head_Throw _ _ _ _ (TypeError "id")); [done |].
    unfold Map.renderLocation. by rewrite Hselection.
  - intros Hle. apply Nat.ltb_ge in Hle.
    cbn -[Nat.ltb length Array_map String.append]. rewrite Hle.
    eexists. split; [reflexivity |]. by split.
Qed.

Lemma map_render_without_selection_witness :
  Map.selection (Map.props Cases.unselected) = None
  ∧ Map.locations (Map.props Cases.unselected) = Some [Cases.headquarters; Cases.tower]
  ∧ (1 < length [Cases.headquarters; Cases.tower])%nat
  ∧ Map.render Cases.unselected = Throw (TypeError "id").
Proof.
  destruct (map_render_without_selection Cases.unselected
              [Cases.headquarters; Cases.tower] eq_refl eq_refl) as [Hraise _].
  assert (1 < length [Cases.headquarters; Cases.tower])%nat as Hlt by (simpl; lia).
  split; [reflexivity |]. split; [reflexivity |]. split; [exact Hlt |].
  exact (Hraise Hlt).
Defined.

Lemma renderLocation_total {R : Type} (inst : Map.Instance R) (i : nat)
    (location : Map.Location.t) :
  is_Some (Map.selection (Map.props inst)) →
  ∃ item, Map.renderLocation inst i location = Ok item.
Proof. intros [selected Hselected]. unfold Map.renderLocation. rewrite Hselected. eauto. Qed.

(** X12: The render of the map completes exactly when [locations] is there and,
    for more than one location, a selection is; without [locations] it
    raises on their length, although the class of the container is guarded
    against their absence. *)
Theorem map_render_completes_iff {R : Type} (inst : Map.Instance R) :
  ((∃ m, Map.render inst = Ok m)
   ↔ ∃ l, Map.locations (Map.props inst) = Some l
          ∧ ((1 < length l)%nat → is_Some (Map.selection (Map.props inst))))
  ∧ (Map.locations (Map.props inst) = None
     → Map.render inst = Throw (TypeError "length")).
Proof.
  split; [split |].
  - intros [m Hm]. apply map_render_inv in Hm as (l & Hl & _ & _ & _ & Hlist).
    exists l. split; [done |]. intros Hlt.
    destruct (Hlist Hlt) as (items & Hitems & _).
    destruct l as [|location l]; [simpl in Hlt; lia |].
    apply Array_map_Ok in Hitems as [_ Hnth].
    destruct (Hnth 0%nat location eq_refl) as (item & _ & Hitem).
    apply renderLocation_Ok_inv in Hitem as (selected & -> & _). eauto.
  - intros (l & Hl & Hselection). unfold Map.render. rewrite Hl.
    cbn -[Nat.ltb length Array_map].
    destruct (1 <? length l)%nat eqn:Hlt; [|cbn; eauto].
    apply Nat.ltb_lt in Hlt.
    destruct (map_from_total (Map.renderLocation inst) l 0) as (items & Hitems).
    { intros j location _. apply renderLocation_total. auto. }
    unfold Array_map. rewrite Hitems. cbn. eauto.
  - intros Hl. unfold Map.render. by rewrite Hl.
Qed.

Lemma map_render_completes_iff_witness :
  (∃ m, Map.render Cases.map = Ok m)
  ∧ (∃ l, Map.locations (Map.props Cases.map) = Some l
          ∧ ((1 < length l)%nat → is_Some (Map.selection (Map.props Cases.map)))).
Proof.
  destruct (map_render_completes_iff Cases.map) as [[_ Hcompletes] _].
  assert (∃ l, Map.locations (Map.props Cases.map) = Some l
            ∧ ((1 < length l)%nat → is_Some (Map.selection (Map.props Cases.map))))
    as H by (eexists; split; [reflexivity | by eexists]).
  split; [exact (Hcompletes H) | exact H].
Defined.

(** X13: The list of coordinates is rendered for two locations or more, and not
    for one or none. It has one item per location, in their order, keyed by
    the location's id; its title counts the locations; and every item, the
    pressed one or not, carries the text that its location is currently
    selected. *)
Theorem map_coordinates {R : Type} (inst : Map.Instance R) (m : Map.Markup R)
    (l : list Map.Location.t) :
  Map.render inst = Ok m →
  Map.locations (Map.props inst) = Some l →
  (Map.coordinates m = None ↔ (length l ≤ 1)%nat)
  ∧ ∀ c, Map.coordinates m = Some c →
      Map.coordinates_title c
      = toString (Map.title m) +:+ " (" +:+ pretty (length l) +:+ ")"
      ∧ length (Map.items c) = length l
      ∧ ∀ i location, l !! i = Some location →
          ∃ item,
            Map.items c !! i = Some item
            ∧ Map.key item = Map.Location.id location
            ∧ Map.link item = Map.Location.name location
            ∧ Map.address_text item = Map.Location.address location
            ∧ Map.live item = Map.Location.name location +:+ " is currently selected".
Proof.
  intros Hrender Hl.
  apply map_render_inv in Hrender as (l' & Hl' & _ & _ & Hnone & Hlist).
  assert (l' = l) as -> by congruence.
  destruct (Nat.le_gt_cases (length l) 1) as [Hle | Hlt].
  - rewrite (Hnone Hle). split; [done |]. intros c Hc. discriminate Hc.
  - destruct (Hlist Hlt) as (items & Hitems & ->).
    split; [split; [discriminate | lia] |].
    intros c [= <-]. simpl. split; [done |].
    apply Array_map_Ok in Hitems as [Hlength Hnth]. split; [done |].
    intros i location Hi. destruct (Hnth i location Hi) as (item & Hitem & Hrender).
    exists item. split; [done |].
    unfold Map.renderLocation in Hrender.
    destruct (Map.selection (Map.props inst)); [|discriminate Hrender].
    apply bind_Ok_inv in Hrender as (pressed & _ & Hrender).
    by injection Hrender as <-.
Qed.

Lemma map_coordinates_witness :
  ∃ m,
    Map.render Cases.map = Ok m
    ∧ (Map.coordinates m = None ↔ (2 ≤ 1)%nat)
    ∧ ∀ c, Map.coordinates m = Some c →
        Map.coordinates_title c = "Interactive Map (2)"
        ∧ length (Map.items c) = 2%nat
        ∧ ∀ i location, [Cases.headquarters; Cases.tower] !! i = Some location →
            ∃ item,
              Map.items c !! i = Some item
              ∧ Map.key item = Map.Location.id location
              ∧ Map.link item = Map.Location.name location
              ∧ Map.address_text item = Map.Location.address location
              ∧ Map.live item
                = Map.Location.name location +:+ " is currently selected".
Proof.
  eexists. split; [reflexivity |].
  exact (map_coordinates Cases.map _ [Cases.headquarters; Cases.tower] eq_refl eq_refl).
Defined.

(** What the items of a rendered list of coordinates are. *)
Lemma map_items_inv {R : Type} (inst : Map.Instance R) (m : Map.Markup R)
    (c : Map.Coordinates R) :
  Map.render inst = Ok m →
  Map.coordinates m = Some c →
  ∃ l selected,
    Map.locations (Map.props inst) = Some l
    ∧ Map.selection (Map.props inst) = Some selected
    ∧ length (Map.items c) = length l
    ∧ (∀ i location, l !! i = Some location →
         ∃ item, Map.items c !! i = Some item
                 ∧ Map.renderLocation inst i location = Ok item)
    ∧ (∀ i item, Map.items c !! i = Some item →
         ∃ location, l !! i = Some location
                     ∧ Map.renderLocation inst i location = Ok item).
Proof.
  intros Hrender Hc.
  apply map_render_inv in Hrender as (l & Hl & _ & _ & Hnone & Hlist).
  destruct (Nat.le_gt_cases (length l) 1) as [Hle | Hlt];
    [rewrite (Hnone Hle) in Hc; discriminate Hc |].
  destruct (Hlist Hlt) as (items & Hitems & Hsome).
  rewrite Hsome in Hc. injection Hc as <-. simpl.
  apply Array_map_Ok in Hitems as [Hlength Hnth].
  assert (∃ selected, Map.selection (Map.props inst) = Some selected) as [selected Hs].
  { destruct l as [|location l]; [simpl in Hlt; lia |].
    destruct (Hnth 0%nat location eq_refl) as (item & _ & Hitem).
    apply renderLocation_Ok_inv in Hitem as (selected & Hs & _). eauto. }
  exists l, selected. repeat split; try done.
  intros i item Hitem.
  destruct (l !! i) as [location|] eqn:Hi.
  - destruct (Hnth i location Hi) as (item' & Hitem' & Hrender').
    exists location. split; [done | congruence].
  - apply lookup_ge_None in Hi. apply lookup_lt_Some in Hitem. lia.
Qed.

(** X14: The pressed items are those whose location has the id of the selection:
    at most one when the ids of the locations differ, and at least one when
    the selection is one of the locations. *)
Theorem map_pressed {R : Type} (inst : Map.Instance R) (m : Map.Markup R)
    (c : Map.Coordinates R) (l : list Map.Location.t) :
  Map.render inst = Ok m →
  Map.coordinates m = Some c →
  Map.locations (Map.props inst) = Some l →
  ∃ selected,
    Map.selection (Map.props inst) = Some selected
    ∧ (∀ i item location,
         Map.items c !! i = Some item → l !! i = Some location →
         (Map.aria_pressed item = true
          ↔ Map.Location.id selected = Map.Location.id location))
    ∧ (NoDup (Map.Location.id <$> l) →
       ∀ i j a b,
         Map.items c !! i = Some a → Map.items c !! j = Some b →
         Map.aria_pressed a = true → Map.aria_pressed b = true → i = j)
    ∧ (selected ∈ l →
       ∃ i item, Map.items c !! i = Some item ∧ Map.aria_pressed item = true).
Proof.
  intros Hrender Hc Hl.
  destruct (map_items_inv inst m c Hrender Hc)
    as (l' & selected & Hl' & Hselected & _ & Hforth & Hback).
  assert (l' = l) as -> by congruence.
  assert (∀ i item location,
            Map.items c !! i = Some item → l !! i = Some location →
            (Map.aria_pressed item = true
             ↔ Map.Location.id selected = Map.Location.id location)) as Hpressed.
  { intros i item location Hitem Hi.
    destruct (Hback i item Hitem) as (location' & Hi' & Hitem').
    assert (location' = location) as -> by congruence.
    apply renderLocation_Ok_inv in Hitem' as (selected' & Hs' & _ & _ & _ & _ & Hiff).
    by assert (selected' = selected) as -> by congruence. }
  exists selected. split; [done |]. split; [done |]. split.
  - intros Hnodup i j a b Ha Hb Hpa Hpb.
    destruct (Hback i a Ha) as (la & Hla & _). destruct (Hback j b Hb) as (lb & Hlb & _).
    apply (Hpressed i a la Ha Hla) in Hpa. apply (Hpressed j b lb Hb Hlb) in Hpb.
    apply (NoDup_lookup _ i j (Map.Location.id selected) Hnodup);
      rewrite list_lookup_fmap; [rewrite Hla | rewrite Hlb]; simpl; congruence.
  - intros Hin. apply list_elem_of_lookup in Hin as [i Hi].
    destruct (Hforth i selected Hi) as (item & Hitem & _).
    exists i, item. split; [done |]. by apply (Hpressed i item selected).
Qed.

Lemma map_pressed_witness :
  ∃ m c selected,
    Map.render Cases.map = Ok m
    ∧ Map.coordinates m = Some c
    ∧ Map.selection (Map.props Cases.map) = Some selected
    ∧ (∀ i item location,
         Map.items c !! i = Some item →
         [Cases.headquarters; Cases.tower] !! i = Some location →
         (Map.aria_pressed item = true
          ↔ Map.Location.id selected = Map.Location.id location))
    ∧ (NoDup (Map.Location.id <$> [Cases.headquarters; Cases.tower]) →
       ∀ i j a b,
         Map.items c !! i = Some a → Map.items c !! j = Some b →
         Map.aria_pressed a = true → Map.aria_pressed b = true → i = j)
    ∧ (selected ∈ [Cases.headquarters; Cases.tower] →
       ∃ i item, Map.items c !! i = Some item ∧ Map.aria_pressed item = true).
Proof.
  destruct (Map.render Cases.map) as [m|] eqn:Hm; [|discriminate Hm].
  destruct (Map.coordinates m) as [c|] eqn:Hc;
    [|revert Hc; injection Hm as <-; discriminate].
  destruct (map_pressed Cases.map m c [Cases.headquarters; Cases.tower] Hm Hc eq_refl)
    as (selected & H).
  exists m, c, selected. split; [reflexivity |]. split; [exact Hc |]. exact H.
Defined.

(** X15: A click on an item of the list runs the caller's callback, if there is
    one, with the event and the location of that very item, never with
    [undefined], and then gives the focus to the frame once it is mounted;
    it does not raise. *)
Theorem map_click {R : Type} (inst : Map.Instance R) (m : Map.Markup R)
    (c : Map.Coordinates R) (i : nat) (item : Map.Item R) (event : value) :
  Map.render inst = Ok m →
  Map.coordinates m = Some c →
  Map.items c !! i = Some item →
  ∃ l location,
    Map.locations (Map.props inst) = Some l
    ∧ l !! i = Some location
    ∧ Map.key item = Map.Location.id location
    ∧ Map.onClick item event
      = Ok (match Map.onClickLocation (Map.props inst) with
            | Some callback => [Map.Called (callback event (Some location))]
            | None => []
            end
            ++ if Map.iframe inst then [Map.Focused] else []).
Proof.
  intros Hrender Hc Hitem.
  destruct (map_items_inv inst m c Hrender Hc) as (l & selected & Hl & _ & _ & _ & Hback).
  destruct (Hback i item Hitem) as (location & Hi & Hitem').
  apply renderLocation_Ok_inv in Hitem' as (_ & _ & Hkey & _ & _ & Hclick & _).
  exists l, location. split; [done |]. split; [done |]. split; [done |].
  rewrite Hclick. unfold Map.handleClick. rewrite Hl, Hi.
  by destruct (Map.onClickLocation (Map.props inst)).
Qed.

Lemma map_click_witness :
  ∃ m c item,
    Map.render Cases.map = Ok m
    ∧ Map.coordinates m = Some c
    ∧ Map.items c !! 1%nat = Some item
    ∧ ∃ l location,
        Map.locations (Map.props Cases.map) = Some l
        ∧ l !! 1%nat = Some location
        ∧ Map.key item = Map.Location.id location
        ∧ Map.onClick item VNull
          = Ok (match Map.onClickLocation (Map.props Cases.map) with
                | Some callback => [Map.Called (callback VNull (Some location))]
                | None => []
                end
                ++ if Map.iframe Cases.map then [Map.Focused] else []).
Proof.
  eexists _, _, _.
  split; [reflexivity |]. split; [reflexivity |]. split; [reflexivity |].
  exact (map_click Cases.map _ _ 1 _ VNull eq_refl eq_refl eq_refl).
Defined.

(** X16: The title of the frame is the [title] of the [labels] prop whenever that
    object has the key, be it with an empty or an [undefined] value, and
    ['Interactive Map'] otherwise. *)
Theorem map_title {R : Type} (inst : Map.Instance R) (m : Map.Markup R) :
  Map.render inst = Ok m →
  Map.title m
  = match spread (Map.labels (Map.props inst)) !! "title" with
    | Some title => title
    | None => VStr "Interactive Map"
    end.
Proof.
  intros Hrender. apply map_render_inv in Hrender as (_ & _ & -> & _).
  unfold field. rewrite lookup_union.
  by destruct (spread (Map.labels (Map.props inst)) !! "title").
Qed.

Lemma map_title_witness :
  ∃ m, Map.render Cases.map = Ok m ∧ Map.title m = VStr "Interactive Map".
Proof.
  eexists. split; [reflexivity |].
  exact (map_title Cases.map _ eq_refl).
Defined.

(** ** Properties of the brand band *)

(** *** The store of nodes *)

Lemma createElement_fresh (document : gmap nat Dom.Node) (tagName : string) :
  document !! (Dom.createElement document tagName).1 = None.
Proof. apply not_elem_of_dom. simpl. apply is_fresh. Qed.

Lemma createElement_old (document : gmap nat Dom.Node) (tagName : string) (n : nat) :
  is_Some (document !! n) →
  n ≠ (Dom.createElement document tagName).1
  ∧ (Dom.createElement document tagName).2 !! n = document !! n.
Proof.
  intros Hn.
  assert (n ≠ (Dom.createElement document tagName).1) as Hne.
  { intros ->. rewrite createElement_fresh in Hn. by destruct Hn. }
  split; [done |]. simpl. by rewrite lookup_insert_ne.
Qed.

Lemma createElement_new (document : gmap nat Dom.Node) (tagName : string) :
  (Dom.createElement document tagName).2 !! (Dom.createElement document tagName).1
  = Some {| Dom.tagName := tagName; Dom.innerHTML := ""; Dom.type := "";
            Dom.children := []; Dom.parentElement := None |}.
Proof. simpl. apply lookup_insert_eq. Qed.

Lemma filter_appended (l : list nat) (x : nat) :
  x ∉ l → List.filter (λ c, negb (c =? x)%nat) (l ++ [x]) = l.
Proof.
  intros Hx. induction l as [|y l IH]; simpl.
  - by rewrite Nat.eqb_refl.
  - apply not_elem_of_cons in Hx as [Hxy Hx].
    destruct (y =? x)%nat eqn:E; [apply Nat.eqb_eq in E; congruence |].
    simpl. by rewrite IH.
Qed.

Lemma closed_fresh_child (document : gmap nat Dom.Node) (tagName : string)
    (n : nat) (node : Dom.Node) :
  Dom.closed document →
  document !! n = Some node →
  (Dom.createElement document tagName).1 ∉ Dom.children node.
Proof.
  intros Hclosed Hn Hin.
  destruct (Hclosed n node _ Hn Hin) as [child Hchild].
  by rewrite createElement_fresh in Hchild.
Qed.

(** *** The style tag *)

Section BrandBandFacts.

Variable querySelector : gmap nat Dom.Node → string → option nat.

(** The injection when a target is found: the new node is a filled [style]
    tag, last child of the target; the other nodes are as they were. *)
Lemma inject_found (inst : BrandBand.Instance) (document : gmap nat Dom.Node)
    (target : nat) (node : Dom.Node) :
  injectionTarget querySelector (BrandBand.props inst) document = Some target →
  document !! target = Some node →
  let tag := (Dom.createElement document "style").1 in
  let injected := BrandBand.injectLightningBlueStyles querySelector inst document in
  injected.1
  = {| BrandBand.props := BrandBand.props inst;
       BrandBand.generatedId := BrandBand.generatedId inst;
       BrandBand.hasRepaintedTheme := BrandBand.hasRepaintedTheme inst;
       BrandBand.styleTag := Some tag |}
  ∧ injected.2 !! tag
    = Some {| Dom.tagName := "style";
              Dom.innerHTML := BrandBand.getLightningBlueStyles (VNum 0);
              Dom.type := "text/css";
              Dom.children := [];
              Dom.parentElement := Some target |}
  ∧ injected.2 !! target
    = Some {| Dom.tagName := Dom.tagName node;
              Dom.innerHTML := Dom.innerHTML node;
              Dom.type := Dom.type node;
              Dom.children := Dom.children node ++ [tag];
              Dom.parentElement := Dom.parentElement node |}
  ∧ ∀ n, n ≠ tag → n ≠ target → injected.2 !! n = document !! n.
Proof.
  intros Htarget Hnode tag injected.
  destruct (createElement_old document "style" target) as [Hne Hold]; [by eexists |].
  subst tag.
  assert (injected
          = ({| BrandBand.props := BrandBand.props inst;
                BrandBand.generatedId := BrandBand.generatedId inst;
                BrandBand.hasRepaintedTheme := BrandBand.hasRepaintedTheme inst;
                BrandBand.styleTag := Some (Dom.createElement document "style").1 |},
             Dom.append target (Dom.createElement document "style").1
               (Dom.set_type (Dom.createElement document "style").1 "text/css"
                  (Dom.set_innerHTML (Dom.createElement document "style").1 (BrandBand.getLightningBlueStyles (VNum 0))
                     (Dom.createElement document "style").2)))) as ->.
  { unfold injected, BrandBand.injectLightningBlueStyles.
    unfold injectionTarget in Htarget.
    destruct (BrandBand.styleInjectionTarget (BrandBand.props inst))
      as [|selector|element|]; try discriminate Htarget; cbv zeta;
      [by rewrite Htarget | by injection Htarget as ->]. }
  cbn [fst snd]. unfold Dom.append, Dom.set_type, Dom.set_innerHTML.
  split; [done |]. split; [|split].
  - rewrite lookup_alter_ne by done.
    rewrite !lookup_alter_eq. by rewrite createElement_new.
  - rewrite lookup_alter_eq, !lookup_alter_ne by done. by rewrite Hold, Hnode.
  - intros n Hn_tag Hn_target.
    rewrite !lookup_alter_ne by done. simpl. by rewrite lookup_insert_ne.
Qed.

(** The injection when no target is found: the instance keeps no style tag
    and the document only gains a [style] node that is in no tree. *)
Lemma inject_not_found (inst : BrandBand.Instance) (document : gmap nat Dom.Node) :
  injectionTarget querySelector (BrandBand.props inst) document = None →
  BrandBand.injectLightningBlueStyles querySelector inst document
  = (inst, (Dom.createElement document "style").2).
Proof.
  intros Htarget. unfold BrandBand.injectLightningBlueStyles.
  unfold injectionTarget in Htarget.
  destruct (BrandBand.styleInjectionTarget (BrandBand.props inst));
    try discriminate Htarget; cbv zeta; by rewrite ?Htarget.
Qed.

End BrandBandFacts.

Section BrandBandLifecycle.

Variable querySelector : gmap nat Dom.Node → string → option nat.

(** X18: Mounting a brand band and unmounting it leaves every node the document
    had as it was, the injection target with its children included: the
    style tag that the constructor appends is the one the unmount removes.
    The document is closed under children, and what the target prop names is
    one of its nodes. *)
Theorem mount_unmount_restores (p : BrandBand.Props) (generated : string)
    (document : gmap nat Dom.Node) :
  Dom.closed document →
  (∀ target, injectionTarget querySelector (BrandBand.defaultProps p) document
             = Some target → is_Some (document !! target)) →
  ∃ document',
    BrandBand.componentWillUnmount
      (BrandBand.mount querySelector p generated document).1
      (BrandBand.mount querySelector p generated document).2
    = Ok document'
    ∧ ∀ n, is_Some (document !! n) → document' !! n = document !! n.
Proof.
  intros Hclosed Htarget. unfold BrandBand.mount, BrandBand.constructor.
  set (inst := {| BrandBand.props := BrandBand.defaultProps p;
                  BrandBand.generatedId := generated;
                  BrandBand.hasRepaintedTheme := false;
                  BrandBand.styleTag := None |}).
  destruct (strict_eq_str (BrandBand.theme (BrandBand.defaultProps p)) "lightning-blue")
    eqn:Htheme; [|by exists document].
  destruct (injectionTarget querySelector (BrandBand.defaultProps p) document)
    as [target|] eqn:Hfound.
  - destruct (Htarget target eq_refl) as [node Hnode].
    destruct (inject_found querySelector inst document target node Hfound Hnode)
      as (Hinst & Htag & Htarget' & Hothers).
    destruct (createElement_old document "style" target) as [Hne _]; [by eexists |].
    set (injected := BrandBand.injectLightningBlueStyles querySelector inst document) in *.
    set (tag := (Dom.createElement document "style").1) in *.
    unfold inst in Hinst. cbn [BrandBand.props BrandBand.generatedId
      BrandBand.hasRepaintedTheme] in Hinst.
    unfold BrandBand.componentDidMount. rewrite Hinst. cbn [BrandBand.styleTag
      BrandBand.hasRepaintedTheme BrandBand.props negb andb]. rewrite Htheme.
    cbn [fst snd]. unfold BrandBand.componentWillUnmount. cbn [BrandBand.styleTag].
    unfold Dom.set_innerHTML at 1. rewrite lookup_alter_eq, Htag. cbn.
    eexists. split; [reflexivity |].
    intros n Hn. destruct (createElement_old document "style" n Hn) as [Hn_tag _].
    fold tag in Hn_tag. unfold Dom.removeChild, Dom.set_innerHTML.
    destruct (decide (n = target)) as [-> | Hn_target].
    + rewrite lookup_alter_eq, !lookup_alter_ne, Htarget', Hnode by done. cbn.
      rewrite filter_appended by (by apply (closed_fresh_child document "style" target)).
      by destruct node.
    + rewrite !lookup_alter_ne by done. by apply Hothers.
  - rewrite (inject_not_found querySelector inst document Hfound).
    cbn. eexists. split; [reflexivity |].
    intros n Hn. by apply createElement_old.
Qed.

(** X19: The style tag an instance keeps is always the style sheet of its
    repaint number: the constructor leaves a tag, if any, with the sheet
    numbered 0 and [hasRepaintedTheme] false; [componentDidMount] swaps the
    sheet for the one numbered 1 and sets the flag, which is then true
    exactly when there is a tag. *)
Theorem style_tag_invariant (p : BrandBand.Props) (generated : string)
    (document : gmap nat Dom.Node) :
  (∀ target, injectionTarget querySelector p document = Some target →
             is_Some (document !! target)) →
  let constructed := BrandBand.constructor querySelector p generated document in
  let mounted := BrandBand.componentDidMount constructed.1 constructed.2 in
  BrandBand.styled constructed.1 constructed.2
  ∧ BrandBand.hasRepaintedTheme constructed.1 = false
  ∧ BrandBand.styled mounted.1 mounted.2
  ∧ BrandBand.styleTag mounted.1 = BrandBand.styleTag constructed.1
  ∧ (BrandBand.hasRepaintedTheme mounted.1 = true
     ↔ is_Some (BrandBand.styleTag mounted.1)).
Proof.
  intros Htarget constructed mounted.
  subst mounted constructed. unfold BrandBand.constructor.
  set (inst := {| BrandBand.props := p;
                  BrandBand.generatedId := generated;
                  BrandBand.hasRepaintedTheme := false;
                  BrandBand.styleTag := None |}).
  destruct (strict_eq_str (BrandBand.theme p) "lightning-blue") eqn:Htheme.
  2:{ cbn. repeat split; try done; try (by intros tag Htag);
        intros H; by destruct H. }
  destruct (injectionTarget querySelector p document) as [target|] eqn:Hfound.
  2:{ rewrite (inject_not_found querySelector inst document Hfound).
      cbn. repeat split; try done; try (by intros tag Htag);
        intros H; by destruct H. }
  destruct (Htarget target eq_refl) as [node Hnode].
  destruct (inject_found querySelector inst document target node Hfound Hnode)
    as (Hinst & Htag & _ & _).
  set (injected := BrandBand.injectLightningBlueStyles querySelector inst document) in *.
  set (tag := (Dom.createElement document "style").1) in *.
  unfold inst in Hinst. cbn [BrandBand.props BrandBand.generatedId
    BrandBand.hasRepaintedTheme] in Hinst.
  apply strict_eq_str_true in Htheme as Htheme'.
  unfold BrandBand.componentDidMount. rewrite Hinst.
  cbn [BrandBand.styleTag BrandBand.hasRepaintedTheme BrandBand.props negb andb].
  rewrite Htheme. cbn [fst snd BrandBand.styleTag BrandBand.hasRepaintedTheme].
  split; [|split; [done |]; split; [|split; [done |]; split; eauto]].
  - intros tag' [= <-]. cbn [BrandBand.props BrandBand.hasRepaintedTheme].
    split; [done |]. eexists. split; [exact Htag |]. done.
  - intros tag' [= <-]. cbn [BrandBand.props BrandBand.hasRepaintedTheme].
    split; [done |]. eexists. split.
    + unfold Dom.set_innerHTML. by rewrite lookup_alter_eq, Htag.
    + done.
Qed.

(** X20: [componentDidMount] repaints once: called again, on what it returned, it
    changes neither the instance nor the document. *)
Theorem componentDidMount_idempotent (inst : BrandBand.Instance)
    (document : gmap nat Dom.Node) :
  let mounted := BrandBand.componentDidMount inst document in
  BrandBand.componentDidMount mounted.1 mounted.2 = mounted.
Proof.
  unfold BrandBand.componentDidMount.
  destruct (BrandBand.styleTag inst) as [tag|] eqn:Htag; cbn; [|by rewrite Htag].
  destruct (BrandBand.hasRepaintedTheme inst) eqn:Hflag; cbn; [by rewrite Htag, Hflag |].
  destruct (strict_eq_str _ _) eqn:Htheme; cbn; [done |].
  by rewrite Htag, Hflag, Htheme.
Qed.

(** X21: A brand band whose theme is not ['lightning-blue'], the default one
    among them, creates no node and keeps no style tag: mounting it and
    unmounting it leave the document as it is. *)
Theorem other_theme_no_style (p : BrandBand.Props) (generated : string)
    (document : gmap nat Dom.Node) :
  BrandBand.theme (BrandBand.defaultProps p) ≠ VStr "lightning-blue" →
  let mounted := BrandBand.mount querySelector p generated document in
  BrandBand.styleTag mounted.1 = None
  ∧ BrandBand.hasRepaintedTheme mounted.1 = false
  ∧ mounted.2 = document
  ∧ BrandBand.componentWillUnmount mounted.1 mounted.2 = Ok document.
Proof.
  intros Htheme mounted. subst mounted.
  unfold BrandBand.mount, BrandBand.constructor.
  destruct (strict_eq_str (BrandBand.theme (BrandBand.defaultProps p)) "lightning-blue")
    eqn:E; [by apply strict_eq_str_true in E |].
  done.
Qed.


End BrandBandLifecycle.

Lemma page_closed : Dom.closed Cases.page.
Proof.
  intros n node child Hn Hchild. unfold Cases.page in Hn.
  repeat (apply lookup_insert_Some in Hn as [[<- <-] | [_ Hn]]);
    [..| apply lookup_singleton_Some in Hn as [<- <-]];
    cbn in Hchild;
    repeat (apply elem_of_cons in Hchild as [-> | Hchild]);
    try (by apply elem_of_nil in Hchild);
    by eexists.
Qed.

Lemma mount_unmount_restores_witness :
  ∃ document',
    BrandBand.componentWillUnmount
      (BrandBand.mount Cases.select Cases.blue "r1Zx" Cases.page).1
      (BrandBand.mount Cases.select Cases.blue "r1Zx" Cases.page).2
    = Ok document'
    ∧ ∀ n, is_Some (Cases.page !! n) → document' !! n = Cases.page !! n.
Proof.
  apply (mount_unmount_restores Cases.select Cases.blue "r1Zx" Cases.page).
  - exact page_closed.
  - intros target [= <-]. by eexists.
Defined.

Lemma style_tag_invariant_witness :
  let constructed :=
    BrandBand.constructor Cases.select (BrandBand.defaultProps Cases.blue) "r1Zx"
      Cases.page in
  let mounted := BrandBand.componentDidMount constructed.1 constructed.2 in
  BrandBand.styled constructed.1 constructed.2
  ∧ BrandBand.hasRepaintedTheme constructed.1 = false
  ∧ BrandBand.styled mounted.1 mounted.2
  ∧ BrandBand.styleTag mounted.1 = BrandBand.styleTag constructed.1
  ∧ (BrandBand.hasRepaintedTheme mounted.1 = true
     ↔ is_Some (BrandBand.styleTag mounted.1)).
Proof.
  apply (style_tag_invariant Cases.select (BrandBand.defaultProps Cases.blue)
           "r1Zx" Cases.page).
  intros target [= <-]. by eexists.
Defined.

Lemma other_theme_no_style_witness :
  BrandBand.theme (BrandBand.defaultProps Cases.plain) ≠ VStr "lightning-blue"
  ∧ BrandBand.styleTag Cases.band = None
  ∧ BrandBand.hasRepaintedTheme Cases.band = false
  ∧ (BrandBand.mount Cases.select Cases.plain "r1Zx" Cases.page).2 = Cases.page
  ∧ BrandBand.componentWillUnmount Cases.band
      (BrandBand.mount Cases.select Cases.plain "r1Zx" Cases.page).2
    = Ok Cases.page.
Proof.
  assert (BrandBand.theme (BrandBand.defaultProps Cases.plain)
          ≠ VStr "lightning-blue") as Htheme by discriminate.
  split; [exact Htheme |].
  exact (other_theme_no_style Cases.select Cases.plain "r1Zx" Cases.page Htheme).
Defined.


(** X23: The style of the container: every entry of [styleContainer] is there as
    given, the background included; where [styleContainer] has no
    background, the container gets the blue one for the theme
    ['lightning-blue'] and the light one for any other; and [zIndex] is 1
    unless [styleContainer] sets it. *)
Theorem container_style_overrides (classNames : list ClassNames.arg → value)
    (inst : BrandBand.Instance) :
  let style := BrandBand.container_style (BrandBand.render classNames inst) in
  let own := spread (BrandBand.styleContainer (BrandBand.props inst)) in
  (∀ k v, own !! k = Some v → style !! k = Some v)
  ∧ (own !! "background" = None →
     style !! "background"
     = Some (if strict_eq_str (BrandBand.theme (BrandBand.props inst)) "lightning-blue"
             then VStr "rgb(176, 196, 223)" else VStr "rgb(250, 250, 249)"))
  ∧ (own !! "zIndex" = None → style !! "zIndex" = Some (VNum 1))
  ∧ (∀ k, own !! k = None →
          k ∉ ["background"; "height"; "position"; "width"; "zIndex"] →
          style !! k = None).
Proof.
  intros style own. subst style own. unfold BrandBand.render. cbn [BrandBand.container_style].
  split; [|split; [|split]].
  - intros k v Hk. by apply lookup_union_Some_l.
  - intros Hnone. rewrite lookup_union_r by done. by simplify_map_eq.
  - intros Hnone. rewrite lookup_union_r by done. by simplify_map_eq.
  - intros k Hnone Hk. rewrite lookup_union_r by done.
    rewrite !not_elem_of_cons in Hk. destruct Hk as (? & ? & ? & ? & ? & _).
    by simplify_map_eq.
Qed.

Lemma container_style_overrides_witness :
  let style := BrandBand.container_style (BrandBand.render Cases.classes Cases.band) in
  style !! "background" = Some (VStr "white")
  ∧ style !! "margin" = Some (VNum 0)
  ∧ style !! "zIndex" = Some (VNum 1)
  ∧ style !! "color" = None.
Proof.
  destruct (container_style_overrides Cases.classes Cases.band)
    as (Hown & _ & Hz & Hother).
  split; [by apply Hown |]. split; [by apply Hown |]. split; [by apply Hz |].
  apply Hother; [done |]. rewrite !not_elem_of_cons. repeat split; try done.
  apply not_elem_of_nil.
Defined.

(** ** The classes of the map *)


